(** * open-diet-data: the embedding generator and the supplement query tool

    A shallow embedding of [scripts/generate-embeddings.py] and
    [scripts/query-nih-dsld.py].  Python values are modelled by small
    inductive types, exceptions by an error monad, and the effects of the
    two [main] functions (printing, file-system and network calls) by a
    trace of events next to the way the run ends. *)

From Stdlib Require Import ZArith QArith Qabs List String Ascii Bool Lia DecimalString.
From stdpp Require Import base option list strings gmap.
Import ListNotations.

Local Open Scope string_scope.
Local Open Scope list_scope.
Local Open Scope Z_scope.

(** ** Python exceptions and the error monad

    [RequestException] stands for the exceptions of [requests] that are
    nothing else, [JSONDecodeError] for [json.JSONDecodeError] proper,
    and [RequestsJSONDecodeError] for
    [requests.exceptions.JSONDecodeError], which is both: it is what
    [response.json()] raises since requests 2.27. *)

Inductive exn :=
| TypeError
| ValueError
| KeyError
| IndexError
| AttributeError
| OverflowError
| RequestException (detail : string)
| JSONDecodeError (detail : string)
| RequestsJSONDecodeError (detail : string)
| OtherError (detail : string).

Inductive result (A : Type) :=
| Ok (a : A)
| Raise (e : exn).
Arguments Ok {A} a.
Arguments Raise {A} e.

Definition rbind {A B} (r : result A) (f : A -> result B) : result B :=
  match r with
  | Ok a => f a
  | Raise e => Raise e
  end.

Declare Scope result_scope.
Delimit Scope result_scope with result.
Notation "'let?' x ':=' r 'in' k" := (rbind r (fun x => k))
  (at level 10, x name, r at level 100, k at level 200) : result_scope.

(** [for x in xs: acc = body(acc, x)], stopping at the first exception. *)
Fixpoint for_each {A B} (body : A -> B -> result A) (xs : list B) (acc : A)
  : result A :=
  match xs with
  | [] => Ok acc
  | x :: rest => rbind (body acc x) (for_each body rest)
  end.

(** [[f(x) for x in xs]], stopping at the first exception. *)
Fixpoint map_result {A B} (f : A -> result B) (xs : list A) : result (list B) :=
  match xs with
  | [] => Ok []
  | x :: rest =>
      rbind (f x) (fun y => rbind (map_result f rest) (fun ys => Ok (y :: ys)))
  end.

(** ** Text rendering of numbers *)

Definition nl : string := String (ascii_of_nat 10) "".

(** [str(n)] for a Python [int]. *)
Definition str_int (n : Z) : string := NilZero.string_of_int (Z.to_int n).

Definition digit_char (d : Z) : ascii := ascii_of_nat (48 + Z.to_nat d).


(** The [places] low decimal digits of [m], most significant first. *)
Fixpoint frac_digits (places : nat) (m : Z) : string :=
  match places with
  | O => ""
  | S p => String (digit_char ((m / 10 ^ Z.of_nat p) mod 10)) (frac_digits p m)
  end.

(** Nearest integer, ties to the even one. *)
Definition round_half_even (q : Q) : Z :=
  let n := Qnum q in
  let d := Z.pos (Qden q) in
  let f := n / d in
  match (2 * (n mod d)) ?= d with
  | Lt => f
  | Gt => f + 1
  | Eq => if Z.even f then f else f + 1
  end.

(** [format(x, ".<places>f")] for a finite float of exact value [x]: the
    correctly rounded decimal, ties to even, with the sign of [x]. *)
Definition format_fixed (places : nat) (x : Q) : string :=
  let scale := 10 ^ Z.of_nat places in
  let n := round_half_even (Qabs x * inject_Z scale) in
  (if Qle_bool 0 x then "" else "-")
  +:+ str_int (n / scale)
  +:+ match places with
      | O => ""
      | S _ => "." +:+ frac_digits places (n mod scale)
      end.

(** The float nearest to an integer: exact up to 2^53, rounded to 53
    significant bits (ties to even) above. *)
Definition float_value (n : Z) : Q :=
  if Z.abs n <=? 2 ^ 53 then inject_Z n
  else
    let e := Z.log2 (Z.abs n) - 52 in
    inject_Z (round_half_even (n # Z.to_pos (2 ^ e)) * 2 ^ e).

(** The least integer too large for a float: it lies half way between
    the largest float, 2^1024 - 2^971, and 2^1024, and rounds up. *)
Definition overflow_bound : Z := 2 ^ 1024 - 2 ^ 970.
Arguments overflow_bound : simpl never.

(** [float(n)] for a Python [int], as [:.2f] converts it:
    [OverflowError] from [overflow_bound] on. *)
Definition float_of_int (n : Z) : result Q :=
  if overflow_bound <=? Z.abs n then Raise OverflowError
  else Ok (float_value n).


(** ** Food records

    A cell of a row read by [pandas.read_csv]: missing ([NaN]/[None]),
    text, an integer, a finite float (its exact value, together with the
    text [str()] gives it: the shortest repr is not recomputed here), or
    an infinity. *)

Inductive cell :=
| CNaN
| CStr (s : string)
| CInt (n : Z)
| CFloat (x : Q) (shown : string)
| CInf (negative : bool).

(** A row ([pandas.Series]) indexed by column name. *)
Abbreviation row := (gmap string cell).

(** [pd.notna(v)] *)
Definition notna (v : cell) : bool :=
  match v with
  | CNaN => false
  | _ => true
  end.

(** [pd.notna(row.get(col))]: [get] gives [None] for an absent column. *)
Definition notna_get (r : row) (col : string) : bool :=
  match r !! col with
  | Some v => notna v
  | None => false
  end.

(** [row[col]] *)
Definition getitem (r : row) (col : string) : result cell :=
  match r !! col with
  | Some v => Ok v
  | None => Raise KeyError
  end.

(** [col in row] *)
Definition contains (r : row) (col : string) : bool :=
  match r !! col with
  | Some _ => true
  | None => false
  end.

(** [str(v)], which is also what an f-string field without a format
    spec shows. *)
Definition py_str (v : cell) : string :=
  match v with
  | CNaN => "nan"
  | CStr s => s
  | CInt n => str_int n
  | CFloat _ shown => shown
  | CInf negative => if negative then "-inf" else "inf"
  end.

(** [v > 0] *)
Definition gt0 (v : cell) : result bool :=
  match v with
  | CNaN => Ok false
  | CStr _ => Raise TypeError
  | CInt n => Ok (0 <? n)
  | CFloat x _ => Ok (negb (Qle_bool x 0))
  | CInf negative => Ok (negb negative)
  end.

(** [f"{v:.2f}"] *)
Definition format_2f (v : cell) : result string :=
  match v with
  | CNaN => Ok "nan"
  | CStr _ => Raise ValueError
  | CInt n => rbind (float_of_int n) (fun x => Ok (format_fixed 2 x))
  | CFloat x _ => Ok (format_fixed 2 x)
  | CInf negative => Ok (if negative then "-inf" else "inf")
  end.

(** [sep.join(parts)]: every element must be a [str]. *)
Fixpoint all_str (parts : list cell) : result (list string) :=
  match parts with
  | [] => Ok []
  | CStr s :: rest => rbind (all_str rest) (fun ss => Ok (s :: ss))
  | _ :: _ => Raise TypeError
  end.

Definition join (sep : string) (parts : list cell) : result string :=
  rbind (all_str parts) (fun ss => Ok (String.concat sep ss)).

(** ** Sequences *)

(** A slice index brought into [0, len], as Python does for [l[lo:hi]]. *)
Definition clamp_index (len i : Z) : Z :=
  if i <? 0 then Z.max 0 (i + len) else Z.min i len.

(** [l[lo:hi]] *)
Definition py_slice {A} (l : list A) (lo hi : Z) : list A :=
  let len := Z.of_nat (length l) in
  let a := clamp_index len lo in
  let b := clamp_index len hi in
  firstn (Z.to_nat (b - a)) (skipn (Z.to_nat a) l).

(** [l[i]] for an index that is not negative. *)
Definition py_index {A} (l : list A) (i : nat) : result A :=
  match nth_error l i with
  | Some x => Ok x
  | None => Raise IndexError
  end.

(** [list(range(start, stop, step))] *)
Definition py_range (start stop step : Z) : result (list Z) :=
  if step =? 0 then Raise ValueError
  else
    let count :=
      if 0 <? step then
        if start <? stop then (stop - start - 1) / step + 1 else 0
      else
        if stop <? start then (start - stop - 1) / (- step) + 1 else 0 in
    Ok (map (fun k => start + Z.of_nat k * step) (seq 0 (Z.to_nat count))).

(** [list(enumerate(l, start))] *)
Fixpoint enumerate {A} (start : nat) (l : list A) : list (nat * A) :=
  match l with
  | [] => []
  | x :: rest => (start, x) :: enumerate (S start) rest
  end.

(** [os.path.join(a, b)] *)
Fixpoint ends_with_slash (s : string) : bool :=
  match s with
  | EmptyString => false
  | String c EmptyString => Ascii.eqb c "/"
  | String _ rest => ends_with_slash rest
  end.

Definition path_join (a b : string) : string :=
  match b with
  | String "/" _ => b
  | _ =>
      match a with
      | EmptyString => b
      | _ => if ends_with_slash a then a +:+ b else a +:+ "/" +:+ b
      end
  end.

(** ** Runs

    What a program does is the list of its events, in order, and the way
    it ends: it returns, it calls [sys.exit], or an exception leaves it. *)

Inductive outcome (A : Type) :=
| Done (a : A)
| Exit (status : Z)
| Uncaught (e : exn).
Arguments Done {A} a.
Arguments Exit {A} status.
Arguments Uncaught {A} e.

Definition run (E A : Type) : Type := list E * outcome A.

Definition trace {E A} (p : run E A) : list E := fst p.
Definition ending {E A} (p : run E A) : outcome A := snd p.

(** The exit status the shell sees; an uncaught exception ends the
    interpreter with status 1. *)
Definition exit_status {E A} (p : run E A) : Z :=
  match ending p with
  | Done _ => 0
  | Exit status => status
  | Uncaught _ => 1
  end.

Definition pure {E A} (a : A) : run E A := ([], Done a).

Definition emit {E} (e : E) : run E unit := ([e], Done tt).

Definition sys_exit {E A} (status : Z) : run E A := ([], Exit status).

Definition lift {E A} (r : result A) : run E A :=
  match r with
  | Ok a => ([], Done a)
  | Raise e => ([], Uncaught e)
  end.

Definition bind {E A B} (p : run E A) (k : A -> run E B) : run E B :=
  match p with
  | (t, Done a) => let '(t', o) := k a in (t ++ t', o)
  | (t, Exit status) => (t, Exit status)
  | (t, Uncaught e) => (t, Uncaught e)
  end.

Declare Scope run_scope.
Delimit Scope run_scope with run.
Notation "x <- p ;; k" := (bind p (fun x => k))
  (at level 100, p at next level, right associativity) : run_scope.
Notation "p ;; k" := (bind p (fun _ => k))
  (at level 100, right associativity) : run_scope.

(** [for x in xs: acc = body(acc, x)] with effects. *)
Fixpoint for_run {E A B} (body : A -> B -> run E A) (xs : list B) (acc : A)
  : run E A :=
  match xs with
  | [] => pure acc
  | x :: rest => bind (body acc x) (for_run body rest)
  end.

(** A run all of whose events satisfy [P] and which, if it calls
    [sys.exit], does so with a status that satisfies [S]. *)
Definition keeps {E A} (P : E -> Prop) (S : Z -> Prop) (p : run E A) : Prop :=
  Forall P (trace p)
  /\ match ending p with
     | Exit status => S status
     | _ => True
     end.

Module Embeddings.

Local Open Scope result_scope.

Definition nutrient_cols : list (string * string) :=
  [ ("protein", "protein");
    ("total_lipid_fat", "fat");
    ("carbohydrate_by_difference", "carbs");
    ("calcium_ca", "calcium");
    ("iron_fe", "iron");
    ("magnesium_mg", "magnesium");
    ("vitamin_c_total_ascorbic_acid", "vitamin C");
    ("vitamin_d3_cholecalciferol", "vitamin D");
    ("vitamin_b12", "vitamin B12") ].

(** One turn of the loop over [nutrient_cols]:
    [if col in row and pd.notna(row[col]) and row[col] > 0: nutrients.append(...)] *)
Definition nutrient_step (r : row) (nutrients : list string)
  (entry : string * string) : result (list string) :=
  let '(col, name) := entry in
  if contains r col then
    let? v := getitem r col in
    if notna v then
      let? v' := getitem r col in
      let? positive := gt0 v' in
      if positive then
        let? v'' := getitem r col in
        let? amount := format_2f v'' in
        Ok (nutrients ++ [name +:+ ": " +:+ amount +:+ "g/100g"])
      else Ok nutrients
    else Ok nutrients
  else Ok nutrients.

(** [create_food_text(row)] *)
Definition create_food_text (r : row) : result string :=
  let parts : list cell := [] in
  let? parts :=
    if notna_get r "food_description" then
      let? v := getitem r "food_description" in Ok (parts ++ [v])
    else Ok parts in
  let? parts :=
    if notna_get r "food_common_name" then
      let? v := getitem r "food_common_name" in
      Ok (parts ++ [CStr ("Also known as: " +:+ py_str v)])
    else Ok parts in
  let? parts :=
    if notna_get r "category" then
      let? v := getitem r "category" in
      Ok (parts ++ [CStr ("Category: " +:+ py_str v)])
    else Ok parts in
  let? parts :=
    if notna_get r "brand_name" then
      let? v := getitem r "brand_name" in
      Ok (parts ++ [CStr ("Brand: " +:+ py_str v)])
    else Ok parts in
  let? nutrients := for_each (nutrient_step r) nutrient_cols [] in
  let parts :=
    match nutrients with
    | [] => parts
    | _ :: _ =>
        parts ++ [CStr ("Nutrients per 100g: "
                        +:+ String.concat ", " (firstn 5 nutrients))]
    end in
  join " | " parts.

(** *** The food-text builder, in the words of its specification *)

(** The columns the builder reads. *)
Definition text_cols : list string :=
  ["food_description"; "food_common_name"; "category"; "brand_name"].

Definition tracked_cols : list string := text_cols ++ map fst nutrient_cols.


Definition text_or_missing (r : row) (col : string) : bool :=
  match r !! col with
  | None | Some CNaN | Some (CStr _) => true
  | Some _ => false
  end.

(** What a nutrient cell makes the loop raise: text cannot be compared
    with zero, and an integer from [overflow_bound] on cannot be
    formatted. *)
Definition offence (v : option cell) : option exn :=
  match v with
  | Some (CStr _) => Some TypeError
  | Some (CInt n) => if overflow_bound <=? n then Some OverflowError else None
  | _ => None
  end.

(** A nutrient column the loop goes through without raising. *)
Definition accepted (r : row) (col : string) : bool :=
  match offence (r !! col) with
  | None => true
  | Some _ => false
  end.

(** The exception of the first nutrient column that is not accepted. *)
Fixpoint failure_of (r : row) (cols : list string) : exn :=
  match cols with
  | [] => TypeError
  | col :: rest =>
      match offence (r !! col) with
      | Some e => e
      | None => failure_of r rest
      end
  end.




(** Present and strictly positive. *)
Definition positive (v : cell) : bool :=
  match v with
  | CInt n => 0 <? n
  | CFloat x _ => negb (Qle_bool x 0)
  | CInf negative => negb negative
  | _ => false
  end.

(** The nutrients of [cols] whose value is present and strictly
    positive, in the order of [cols], each with its display name. *)
Definition qualifying_of (cols : list (string * string)) (r : row)
  : list (string * cell) :=
  omap (fun entry : string * string =>
          match r !! fst entry with
          | Some v => if positive v then Some (snd entry, v) else None
          | None => None
          end) cols.

Definition qualifying (r : row) : list (string * cell) :=
  qualifying_of nutrient_cols r.



(** The same with the amount as [format_2f] shows it (infinities too). *)
Definition shown_entry (picked : string * cell) : string :=
  fst picked +:+ ": "
  +:+ match format_2f (snd picked) with Ok s => s | Raise _ => "" end
  +:+ "g/100g".

Definition segment_of (entries : list string) : list string :=
  match entries with
  | [] => []
  | _ :: _ => ["Nutrients per 100g: " +:+ String.concat ", " entries]
  end.


(** The cell of a column, when it is not missing. *)
Definition present (r : row) (col : string) : list cell :=
  match r !! col with
  | Some v => if notna v then [v] else []
  | None => []
  end.

(** The part a text column contributes. *)
Definition labelled (r : row) (col prefix : string) : list string :=
  match r !! col with
  | Some v => if notna v then [prefix +:+ py_str v] else []
  | None => []
  end.


(** Example rows. *)
Definition cheddar : row :=
  list_to_map [("fdc_id", CInt 328637);
               ("food_description", CStr "Cheese, cheddar");
               ("category", CStr "Dairy");
               ("protein", CFloat (2287 # 100) "22.87");
               ("total_lipid_fat", CFloat (333 # 10) "33.3");
               ("carbohydrate_by_difference", CFloat (337 # 100) "3.37");
               ("calcium_ca", CInt 710);
               ("iron_fe", CFloat (1 # 8) "0.125");
               ("magnesium_mg", CInt 27);
               ("vitamin_c_total_ascorbic_acid", CInt 0);
               ("vitamin_d3_cholecalciferol", CNaN);
               ("vitamin_b12", CFloat (11 # 10) "1.1")].

Definition celery : row :=
  list_to_map [("fdc_id", CInt 169988);
               ("food_description", CStr "Celery, raw");
               ("category", CStr "Vegetables");
               ("protein", CFloat (69 # 100) "0.69");
               ("total_lipid_fat", CFloat (17 # 100) "0.17");
               ("carbohydrate_by_difference", CFloat (297 # 100) "2.97");
               ("calcium_ca", CInt 40);
               ("iron_fe", CFloat (1 # 5) "0.2");
               ("magnesium_mg", CInt 11);
               ("vitamin_c_total_ascorbic_acid", CInt 3);
               ("vitamin_d3_cholecalciferol", CFloat 0 "0.0");
               ("vitamin_b12", CFloat 0 "0.0")].

(** The cheddar row under another identifier. *)
Definition relabelled_cheddar : row := <["fdc_id" := CInt 1]> cheddar.





(** *** The world the generator runs in *)

Definition vector := list Q.

Record item := {
  fdc_id : string;
  text : string;
  embedding : vector;
}.

Record document := {
  model : string;
  count : nat;
  dimension : nat;
  items : list item;
}.

Inductive event :=
| Print (line : string)
| Makedirs (path : string)
| EmbeddingsCreate (model_name : string) (input : list string)
| Encode (model_name : string) (texts : list string) (batch_size : Z)
| WriteJson (path : string) (doc : document).

(** File-system calls ([os.makedirs], [open], [json.dump]) are taken to
    succeed; what the run reads from outside is a field of the world. *)
Record world := {
  pandas_installed : bool;
  openai_installed : bool;
  sentence_transformers_installed : bool;
  (** [os.environ] *)
  environ : gmap string string;
  (** [os.path.exists] *)
  path_exists : string -> bool;
  (** [pd.read_csv]: the rows of the file, or the exception it raises *)
  read_csv : string -> result (list row);
  (** the embedding service: the vectors of [response.data] for a batch *)
  embeddings_create : list string -> result (list vector);
  (** [SentenceTransformer(...).encode(texts, batch_size=...).tolist()] *)
  encode : list string -> Z -> result (list vector);
  (** [os.path.getsize] of the file [json.dump] wrote for a document *)
  getsize : document -> Z;
}.

Record args := {
  input : string;
  output : option string;
  local : bool;
  limit : option Z;
  batch_size : Z;
}.

Local Open Scope run_scope.

Abbreviation prog := (run event).

Definition print (line : string) : prog unit := emit (Print line).

(** Truth value of a [str] or [None]. *)
Definition truthy_str (s : option string) : bool :=
  match s with
  | Some (String _ _) => true
  | _ => false
  end.

(** Truth value of an [int] or [None]. *)
Definition truthy_int (n : option Z) : bool :=
  match n with
  | Some n => negb (n =? 0)
  | None => false
  end.

Definition str_nat (n : nat) : string := str_int (Z.of_nat n).

(** One turn of the batch loop of [generate_openai_embeddings]. *)
Definition batch_step (w : world) (texts : list string) (batch_size : Z)
  (embeddings : list vector) (i : Z) : prog (list vector) :=
  let batch := py_slice texts i (i + batch_size) in
  emit (EmbeddingsCreate "text-embedding-3-small" batch);;
  batch_embeddings <- lift (embeddings_create w batch);;
  let embeddings := embeddings ++ batch_embeddings in
  print ("  Processed "
         +:+ str_int (Z.min (i + batch_size) (Z.of_nat (length texts)))
         +:+ "/" +:+ str_nat (length texts));;
  pure embeddings.

(** [generate_openai_embeddings(texts, batch_size)] *)
Definition generate_openai_embeddings (w : world) (texts : list string)
  (batch_size : Z) : prog (list vector) :=
  if negb (openai_installed w) then
    print "Error: openai library required. Install with: pip install openai";;
    sys_exit 1
  else
    let api_key := environ w !! "OPENAI_API_KEY" in
    if negb (truthy_str api_key) then
      print "Error: OPENAI_API_KEY environment variable not set";;
      print (nl +:+ "To set it:");;
      print "  export OPENAI_API_KEY='your-api-key-here'";;
      print (nl +:+ "Get your API key from: https://platform.openai.com/api-keys");;
      sys_exit 1
    else
      print ("Generating embeddings for " +:+ str_nat (length texts)
             +:+ " texts...");;
      starts <- lift (py_range 0 (Z.of_nat (length texts)) batch_size);;
      for_run (batch_step w texts batch_size) starts [].

(** [generate_local_embeddings(texts, batch_size)] *)
Definition generate_local_embeddings (w : world) (texts : list string)
  (batch_size : Z) : prog (list vector) :=
  if negb (sentence_transformers_installed w) then
    print "Error: sentence-transformers required for local embeddings";;
    print "Install with: pip install sentence-transformers";;
    sys_exit 1
  else
    print "Loading local embedding model (all-MiniLM-L6-v2)...";;
    print ("Generating embeddings for " +:+ str_nat (length texts)
           +:+ " texts...");;
    emit (Encode "all-MiniLM-L6-v2" texts batch_size);;
    lift (encode w texts batch_size).

(** [df.head(n)], which pandas defines as [df.iloc[:n]]. *)
Definition head (df : list row) (n : Z) : list row := py_slice df 0 n.

(** [len(embeddings[0]) if embeddings else 0] *)
Definition dimension_of (embeddings : list vector) : result nat :=
  match embeddings with
  | _ :: _ => rbind (py_index embeddings 0) (fun first => Ok (length first))
  | [] => Ok O
  end.

(** One element of the ["items"] comprehension. *)
Definition make_item (texts : list string) (embeddings : list vector)
  (entry : nat * row) : result item :=
  let '(i, r) := entry in
  let id := match r !! "fdc_id" with
            | Some v => py_str v
            | None => str_nat i
            end in
  rbind (py_index texts i) (fun t =>
  rbind (py_index embeddings i) (fun e =>
  Ok {| fdc_id := id; text := t; embedding := e |})).

(** The part of [main] that follows the row limit: text building,
    embedding, assembly of the output document and its writing. *)
Definition process (w : world) (a : args) (output_dir : string)
  (df : list row) : prog unit :=
  print ("Loaded " +:+ str_nat (length df) +:+ " food items");;
  print "Creating searchable text for each food item...";;
  texts <- lift (map_result create_food_text df);;
  provided <-
    (if local a then
       print (nl +:+ "Using local embeddings (sentence-transformers)");;
       embeddings <- generate_local_embeddings w texts (batch_size a);;
       pure (embeddings, "all-MiniLM-L6-v2")
     else
       print (nl +:+ "Using OpenAI embeddings (text-embedding-3-small)");;
       embeddings <- generate_openai_embeddings w texts (batch_size a);;
       pure (embeddings, "text-embedding-3-small"));;
  let '(embeddings, model_name) := provided in
  let output_file := path_join output_dir "usda_embeddings.json" in
  print (nl +:+ "Saving embeddings to " +:+ output_file +:+ "...");;
  dim <- lift (dimension_of embeddings);;
  entries <- lift (map_result (make_item texts embeddings) (enumerate 0 df));;
  let data := {| model := model_name;
                 count := length embeddings;
                 dimension := dim;
                 items := entries |} in
  emit (WriteJson output_file data);;
  let file_size := getsize w data # 1048576 in
  print (nl +:+ "Embeddings saved: " +:+ output_file +:+ " ("
         +:+ format_fixed 1 file_size +:+ " MB)");;
  print ("  Model: " +:+ model_name);;
  print ("  Items: " +:+ str_nat (length embeddings));;
  dim' <- lift (dimension_of embeddings);;
  print ("  Dimensions: " +:+ str_nat dim').

(** [main()], after [parser.parse_args()]. *)
Definition main (w : world) (a : args) : prog unit :=
  if negb (path_exists w (input a)) then
    print ("Error: Input file not found: " +:+ input a);;
    sys_exit 1
  else
    let output_dir := if truthy_str (output a) then default "" (output a)
                      else "output/embeddings" in
    emit (Makedirs output_dir);;
    print ("Loading data from " +:+ input a +:+ "...");;
    df <- lift (read_csv w (input a));;
    df <- (if truthy_int (limit a) then
             let df := head df (default 0 (limit a)) in
             print ("Limited to " +:+ str_int (default 0 (limit a)) +:+ " rows");;
             pure df
           else pure df);;
    process w a output_dir df.

(** The script: the import of pandas at module level, then [main]. *)
Definition script (w : world) (a : args) : prog unit :=
  if negb (pandas_installed w) then
    print "Error: pandas required. Install with: pip install pandas";;
    sys_exit 1
  else main w a.

(** *** Observations on a run *)

(** Calls to the embedding service. *)
Definition is_network (e : event) : bool :=
  match e with
  | EmbeddingsCreate _ _ => true
  | _ => false
  end.

(** The batches sent to the embedding service, in order. *)
Definition network_inputs (t : list event) : list (list string) :=
  omap (fun e => match e with
                 | EmbeddingsCreate _ batch => Some batch
                 | _ => None
                 end) t.

(** Creation of, or writing into, the output directory. *)
Definition is_write (e : event) : bool :=
  match e with
  | Makedirs _ | WriteJson _ _ => true
  | _ => false
  end.

(** The documents written, in order. *)
Definition written (t : list event) : list document :=
  omap (fun e => match e with
                 | WriteJson _ doc => Some doc
                 | _ => None
                 end) t.

(** [args.output or "output/embeddings"] *)
Definition output_dir_of (a : args) : string :=
  if truthy_str (output a) then default "" (output a)
  else "output/embeddings".

(** The rows [main] goes on with after the row limit. *)
Definition limited (a : args) (df : list row) : list row :=
  if truthy_int (limit a) then head df (default 0 (limit a)) else df.

(** What [main] does between the check of the input path and the
    pipeline proper. *)
Definition loading_events (a : args) : list event :=
  [ Makedirs (output_dir_of a);
    Print ("Loading data from " +:+ input a +:+ "...") ]
  ++ (if truthy_int (limit a)
      then [Print ("Limited to " +:+ str_int (default 0 (limit a)) +:+ " rows")]
      else []).

(** The calls to the local model: its input and batch size. *)
Definition encode_calls (t : list event) : list (list string * Z) :=
  omap (fun e => match e with
                 | Encode _ texts b => Some (texts, b)
                 | _ => None
                 end) t.

(** The files written: path and content. *)
Definition write_events (t : list event) : list (string * document) :=
  omap (fun e => match e with
                 | WriteJson path doc => Some (path, doc)
                 | _ => None
                 end) t.

(** The provider [main] chooses, with the name of its model. *)
Definition provider_run (w : world) (a : args) (texts : list string)
  : prog (list vector * string) :=
  if local a then
    print (nl +:+ "Using local embeddings (sentence-transformers)");;
    embeddings <- generate_local_embeddings w texts (batch_size a);;
    pure (embeddings, "all-MiniLM-L6-v2")
  else
    print (nl +:+ "Using OpenAI embeddings (text-embedding-3-small)");;
    embeddings <- generate_openai_embeddings w texts (batch_size a);;
    pure (embeddings, "text-embedding-3-small").

(** The batches the remote provider is to send for a batch size. *)
Definition planned_batches (texts : list string) (b : Z) : list (list string) :=
  match py_range 0 (Z.of_nat (length texts)) b with
  | Ok starts => map (fun i => py_slice texts i (i + b)) starts
  | Raise _ => []
  end.

(** The rows [df.head(n)] keeps, spelled out. *)
Definition kept_by_head (df : list row) (n : Z) : list row :=
  if 0 <=? n then firstn (Z.to_nat n) df
  else firstn (length df - Z.to_nat (- n)) df.

(** The rows a command line keeps: all of them without a limit or with
    the limit 0. *)
Definition kept_rows (a : args) (df : list row) : list row :=
  match limit a with
  | None => df
  | Some n => if n =? 0 then df else kept_by_head df n
  end.

(** What the provider prints when the credential is absent. *)
Definition remediation : list event :=
  [ Print "Error: OPENAI_API_KEY environment variable not set";
    Print (nl +:+ "To set it:");
    Print "  export OPENAI_API_KEY='your-api-key-here'";
    Print (nl +:+ "Get your API key from: https://platform.openai.com/api-keys") ].

(** *** Example worlds and command lines *)

(** A service that answers each text with the one-component vector of
    its length. *)
Definition length_vector (s : string) : vector :=
  [inject_Z (Z.of_nat (String.length s))].

Definition example_world (rows : list row) (env : list (string * string))
  : world :=
  {| pandas_installed := true;
     openai_installed := true;
     sentence_transformers_installed := true;
     environ := list_to_map env;
     path_exists := fun p => String.eqb p "usda.csv";
     read_csv := fun _ => Ok rows;
     embeddings_create := fun batch => Ok (map length_vector batch);
     encode := fun texts _ => Ok (map length_vector texts);
     getsize := fun doc => 2048 * Z.of_nat (length (items doc)) |}.

Definition with_key : list (string * string) := [("OPENAI_API_KEY", "sk-test")].

(** A service that refuses every batch starting with "fig". *)
Definition refusing_world : world :=
  {| pandas_installed := true;
     openai_installed := true;
     sentence_transformers_installed := true;
     environ := list_to_map with_key;
     path_exists := fun p => String.eqb p "usda.csv";
     read_csv := fun _ => Ok [];
     embeddings_create := fun batch =>
       match batch with
       | "fig" :: _ => Raise (OtherError "rate limit")
       | _ => Ok (map length_vector batch)
       end;
     encode := fun texts _ => Ok (map length_vector texts);
     getsize := fun _ => 0 |}.

(** A local model that returns a fixed number of vectors. *)
Definition fixed_reply_world (rows : list row) (n : nat) : world :=
  {| pandas_installed := true;
     openai_installed := true;
     sentence_transformers_installed := true;
     environ := ∅;
     path_exists := fun p => String.eqb p "usda.csv";
     read_csv := fun _ => Ok rows;
     embeddings_create := fun batch => Ok (map length_vector batch);
     encode := fun _ _ => Ok (repeat [1%Q; 0%Q] n);
     getsize := fun _ => 0 |}.

Definition local_args (path : string) (n : option Z) : args :=
  {| input := path; output := None; local := true; limit := n;
     batch_size := 32 |}.

(** The document written for a dataset without rows. *)
Definition empty_document : document :=
  {| model := "text-embedding-3-small"; count := 0; dimension := 0;
     items := [] |}.

Definition example_args (path : string) (n : option Z) (b : Z) : args :=
  {| input := path; output := None; local := false; limit := n;
     batch_size := b |}.

End Embeddings.

Module Query.

Local Open Scope run_scope.

(** *** JSON values and the world the query tool runs in *)

(** A decoded JSON value; an object keeps its members in order, with
    one entry per key. *)
#[warnings="-register-all"]
Inductive json :=
| JNull
| JBool (b : bool)
| JInt (n : Z)
| JFloat (x : Q)
| JStr (s : string)
| JArr (elements : list json)
| JObj (members : list (string * json)).

Abbreviation dict := (list (string * json)).

(** [d.get(key)] *)
Fixpoint dict_get (d : dict) (key : string) : option json :=
  match d with
  | [] => None
  | (k, v) :: rest => if String.eqb k key then Some v else dict_get rest key
  end.

(** [d[key]] *)
Definition dict_getitem (d : dict) (key : string) : result json :=
  match dict_get d key with
  | Some v => Ok v
  | None => Raise KeyError
  end.

(** [key in d] *)
Definition dict_contains (d : dict) (key : string) : bool :=
  match dict_get d key with
  | Some _ => true
  | None => false
  end.

Inductive param :=
| PStr (s : string)
| PInt (n : Z).

(** The arguments of one [requests.get]; no [params] is the empty list. *)
Record request := {
  url : string;
  params : list (string * param);
  timeout : Z;
}.

Inductive event :=
| Print (line : string)
| PrintHelp
| HttpGet (req : request).

Record world := {
  (** [requests.get(...)], [raise_for_status()] and [.json()]: the
      decoded body, or the exception one of the three raises *)
  http_get : request -> result json;
  (** [str()] of a float, a list or a dict *)
  repr_of : json -> string;
  (** [json.dumps(value, indent=2)] *)
  json_dumps : json -> string;
}.

Abbreviation prog := (run event).

Definition print (line : string) : prog unit := emit (Print line).

Definition DSLD_BASE_URL : string := "https://api.ods.od.nih.gov/dsld/v9".

(** [str(v)], and an f-string field without a format spec. *)
Definition py_str (w : world) (v : json) : string :=
  match v with
  | JNull => "None"
  | JBool b => if b then "True" else "False"
  | JInt n => str_int n
  | JStr s => s
  | _ => repr_of w v
  end.

(** The three lines every client function ends with. *)
Definition fetch (w : world) (req : request) : prog json :=
  emit (HttpGet req);;
  lift (http_get w req).

(** [search_products(query, limit=10)] *)
Definition search_products (w : world) (query : string) (limit : option Z)
  : prog json :=
  let limit := default 10 limit in
  let url := DSLD_BASE_URL +:+ "/browse" in
  let params := [("name", PStr query); ("pagesize", PInt limit);
                 ("page", PInt 1)] in
  fetch w {| url := url; params := params; timeout := 30 |}.

(** [get_product_label(dsld_id)] *)
Definition get_product_label (w : world) (dsld_id : string) : prog json :=
  let url := DSLD_BASE_URL +:+ "/label/" +:+ dsld_id in
  fetch w {| url := url; params := []; timeout := 30 |}.

(** [search_by_ingredient(ingredient, limit=10)] *)
Definition search_by_ingredient (w : world) (ingredient : string)
  (limit : option Z) : prog json :=
  let limit := default 10 limit in
  let url := DSLD_BASE_URL +:+ "/browse" in
  let params := [("ingredient", PStr ingredient); ("pagesize", PInt limit);
                 ("page", PInt 1)] in
  fetch w {| url := url; params := params; timeout := 30 |}.

(** [search_by_brand(brand, limit=10)] *)
Definition search_by_brand (w : world) (brand : string) (limit : option Z)
  : prog json :=
  let limit := default 10 limit in
  let url := DSLD_BASE_URL +:+ "/browse" in
  let params := [("brandname", PStr brand); ("pagesize", PInt limit);
                 ("page", PInt 1)] in
  fetch w {| url := url; params := params; timeout := 30 |}.

(** The list [lines] of [format_product] just before the join. *)
Definition product_lines (w : world) (product : dict) : result (list string) :=
  let lines := [] in
  let lines := lines ++ ["  ID: " +:+ py_str w (default (JStr "N/A") (dict_get product "dsld_id"))] in
  let lines := lines ++ ["  Name: " +:+ py_str w (default (JStr "N/A") (dict_get product "product_name"))] in
  let lines := lines ++ ["  Brand: " +:+ py_str w (default (JStr "N/A") (dict_get product "brand_name"))] in
  let lines := lines ++ ["  Type: " +:+ py_str w (default (JStr "N/A") (dict_get product "product_type"))] in
  if dict_contains product "serving_size" then
    rbind (dict_getitem product "serving_size") (fun v =>
    Ok (lines ++ ["  Serving: " +:+ py_str w v]))
  else Ok lines.

(** [format_product(product)] *)
Definition format_product (w : world) (product : dict) : result string :=
  rbind (product_lines w product) (fun lines => Ok (String.concat nl lines)).

(** *** The command line *)

Record args := {
  product : option string;
  ingredient : option string;
  brand : option string;
  label : option string;
  (** [--limit], when given *)
  limit : option Z;
  json_flag : bool;
}.

Definition truthy (s : option string) : bool :=
  match s with
  | Some (String _ _) => true
  | _ => false
  end.

Fixpoint repeat_str (s : string) (n : nat) : string :=
  match n with
  | O => ""
  | S k => s +:+ repeat_str s k
  end.

Definition rule : string := repeat_str "=" 60.

(** [value.get(key, fallback)] on a decoded value that may not be a dict. *)
Definition attr_get (value : json) (key : string) (fallback : json)
  : result json :=
  match value with
  | JObj d => Ok (default fallback (dict_get d key))
  | _ => Raise AttributeError
  end.

(** [len(value)] *)
Definition py_len (value : json) : result nat :=
  match value with
  | JArr l => Ok (length l)
  | JObj d => Ok (length d)
  | JStr s => Ok (String.length s)
  | _ => Raise TypeError
  end.

Fixpoint chars (s : string) : list json :=
  match s with
  | EmptyString => []
  | String c rest => JStr (String c "") :: chars rest
  end.

(** [iter(value)]: the elements of a list, the keys of a dict, the
    characters of a string. *)
Definition py_iter (value : json) : result (list json) :=
  match value with
  | JArr l => Ok l
  | JObj d => Ok (map (fun kv => JStr (fst kv)) d)
  | JStr s => Ok (chars s)
  | _ => Raise TypeError
  end.

(** One turn of the loop that prints the products. *)
Definition show_product (w : world) (_ : unit) (entry : nat * json)
  : prog unit :=
  let '(i, product) := entry in
  name <- lift (attr_get product "product_name" (JStr "Unknown"));;
  print (str_int (Z.of_nat i) +:+ ". " +:+ py_str w name);;
  text <- lift (match product with
                | JObj d => format_product w d
                | _ => Raise AttributeError
                end);;
  print text;;
  print "".

(** The block the three search branches share: raw JSON, or the
    numbered list of products. *)
Definition present (w : world) (a : args) (result : json) : prog unit :=
  if json_flag a then print (json_dumps w result)
  else
    fallback <- lift (attr_get result "data" (JArr []));;
    products <- lift (attr_get result "products" fallback);;
    n <- lift (py_len products);;
    print (nl +:+ "Found " +:+ str_int (Z.of_nat n) +:+ " products:" +:+ nl);;
    elements <- lift (py_iter products);;
    for_run (show_product w) (enumerate 1 elements) tt.

(** The body of the [try] block of [main]. *)
Definition dispatch (w : world) (a : args) : prog unit :=
  let limit := default 10 (limit a) in
  if truthy (label a) then
    let id := default "" (label a) in
    print ("Fetching label for DSLD ID: " +:+ id);;
    result <- get_product_label w id;;
    if json_flag a then print (json_dumps w result)
    else
      print (nl +:+ rule);;
      print "Product Label Details";;
      print rule;;
      print (json_dumps w result)
  else if truthy (ingredient a) then
    let q := default "" (ingredient a) in
    print ("Searching for products with ingredient: " +:+ q);;
    result <- search_by_ingredient w q (Some limit);;
    present w a result
  else if truthy (brand a) then
    let q := default "" (brand a) in
    print ("Searching for brand: " +:+ q);;
    result <- search_by_brand w q (Some limit);;
    present w a result
  else if truthy (product a) then
    let q := default "" (product a) in
    print ("Searching for product: " +:+ q);;
    result <- search_products w q (Some limit);;
    present w a result
  else pure tt.

(** The two [except] clauses of [main], in order: the first catches
    every [RequestException], the JSON error of [requests] included;
    the second the [json.JSONDecodeError] that is none. *)
Definition handle (p : prog unit) : prog unit :=
  match p with
  | (t, Uncaught (RequestException e))
  | (t, Uncaught (RequestsJSONDecodeError e)) =>
      (t ++ [Print ("Error querying NIH DSLD API: " +:+ e)], Exit 1)
  | (t, Uncaught (JSONDecodeError e)) =>
      (t ++ [Print ("Error parsing API response: " +:+ e)], Exit 1)
  | _ => p
  end.

(** [main()], after [parser.parse_args()]. *)
Definition main (w : world) (a : args) : prog unit :=
  if negb (truthy (product a) || truthy (ingredient a) || truthy (brand a)
           || truthy (label a)) then
    emit PrintHelp;;
    print (nl +:+ rule);;
    print "NIH DSLD API Information";;
    print rule;;
    print (nl +:+ "API Base URL: https://api.ods.od.nih.gov/dsld/v9");;
    print "Documentation: https://dsld.od.nih.gov/api-guide";;
    print "Web Interface: https://dsld.od.nih.gov/";;
    print (nl +:+ "No API key required - public access with rate limits");;
    print (nl +:+ "Example queries:");;
    print "  python query-nih-dsld.py --ingredient 'vitamin d' --limit 5";;
    print "  python query-nih-dsld.py --product 'fish oil'";;
    print "  python query-nih-dsld.py --brand 'nature made'";;
    print "  python query-nih-dsld.py --label 123456 --json";;
    sys_exit 0
  else handle (dispatch w a).

(** *** Observations and the specification's words *)

(** The value of a query parameter of a request. *)
Fixpoint lookup_param (ps : list (string * param)) (key : string)
  : option param :=
  match ps with
  | [] => None
  | (k, v) :: rest => if String.eqb k key then Some v else lookup_param rest key
  end.

Definition page_size (req : request) : option param :=
  lookup_param (params req) "pagesize".

(** The HTTP requests of a run, in order. *)
Definition http_requests (t : list event) : list request :=
  omap (fun e => match e with
                 | HttpGet req => Some req
                 | _ => None
                 end) t.

(** A run that sends no HTTP request. *)
Definition quiet {A} (p : prog A) : Prop := http_requests (trace p) = [].

(** The four operations of the client, called with a search term (or a
    label id) and a limit; [get_product_label] takes no limit. *)
Inductive operation :=
| ByProduct
| ByIngredient
| ByBrand
| LabelDetail.

Definition call (op : operation) (w : world) (term : string)
  (limit : option Z) : prog json :=
  match op with
  | ByProduct => search_products w term limit
  | ByIngredient => search_by_ingredient w term limit
  | ByBrand => search_by_brand w term limit
  | LabelDetail => get_product_label w term
  end.

(** What the presenter shows for a field: its text, or the placeholder. *)
Definition shown_field (w : world) (product : dict) (key : string) : string :=
  match dict_get product key with
  | Some v => py_str w v
  | None => "N/A"
  end.

(** The serving line, present exactly when the key is. *)
Definition serving_line (w : world) (product : dict) : list string :=
  match dict_get product "serving_size" with
  | Some v => ["  Serving: " +:+ py_str w v]
  | None => []
  end.

Definition browse (key term : string) (limit : Z) : request :=
  {| url := DSLD_BASE_URL +:+ "/browse";
     params := [(key, PStr term); ("pagesize", PInt limit); ("page", PInt 1)];
     timeout := 30 |}.

Definition label_request (id : string) : request :=
  {| url := DSLD_BASE_URL +:+ "/label/" +:+ id; params := []; timeout := 30 |}.

(** The number of search flags given with a value that is not empty. *)
Definition flags_given (a : args) : nat :=
  length (List.filter truthy [label a; ingredient a; brand a; product a]).

(** The request of the operation picked by precedence: label, then
    ingredient, then brand, then product. *)
Definition selected (a : args) : option request :=
  let n := default 10 (limit a) in
  match label a, ingredient a, brand a, product a with
  | Some (String c id), _, _, _ => Some (label_request (String c id))
  | _, Some (String c q), _, _ => Some (browse "ingredient" (String c q) n)
  | _, _, Some (String c q), _ => Some (browse "brandname" (String c q) n)
  | _, _, _, Some (String c q) => Some (browse "name" (String c q) n)
  | _, _, _, _ => None
  end.

(** The message [main] prints before it sends the request. *)
Definition banner (a : args) : string :=
  match label a, ingredient a, brand a, product a with
  | Some (String c id), _, _, _ =>
      "Fetching label for DSLD ID: " +:+ String c id
  | _, Some (String c q), _, _ =>
      "Searching for products with ingredient: " +:+ String c q
  | _, _, Some (String c q), _ => "Searching for brand: " +:+ String c q
  | _, _, _, Some (String c q) => "Searching for product: " +:+ String c q
  | _, _, _, _ => ""
  end.

(** What the label branch prints for the document it fetched. *)
Definition show_label (w : world) (a : args) (result : json) : prog unit :=
  if json_flag a then print (json_dumps w result)
  else
    print (nl +:+ rule);;
    print "Product Label Details";;
    print rule;;
    print (json_dumps w result).

(** What [main] does with the document it fetched. *)
Definition after_fetch (w : world) (a : args) (result : json) : prog unit :=
  if truthy (label a) then show_label w a result else present w a result.

(** The list of products of a document: under "products", else under
    "data", else empty. *)
Definition listing (d : dict) : json :=
  default (default (JArr []) (dict_get d "data")) (dict_get d "products").

(** The text of a product, line by line. *)
Definition product_text (w : world) (product : dict) : string :=
  String.concat nl
    ([ "  ID: " +:+ shown_field w product "dsld_id";
       "  Name: " +:+ shown_field w product "product_name";
       "  Brand: " +:+ shown_field w product "brand_name";
       "  Type: " +:+ shown_field w product "product_type" ]
     ++ serving_line w product).

(** The three lines printed for the product of a given number. *)
Definition product_events (w : world) (entry : nat * dict) : list event :=
  [ Print (str_int (Z.of_nat (fst entry)) +:+ ". "
           +:+ py_str w (default (JStr "Unknown")
                           (dict_get (snd entry) "product_name")));
    Print (product_text w (snd entry));
    Print "" ].

Definition is_dict (value : json) : bool :=
  match value with
  | JObj _ => true
  | _ => false
  end.

(** The keys the presenter of a product reads. *)
Definition product_keys : list string :=
  ["dsld_id"; "product_name"; "brand_name"; "product_type"; "serving_size"].

(** *** Example world and command lines *)

Definition fish_oil_on_sale : dict :=
  [("dsld_id", JInt 12345); ("on_sale", JBool true);
   ("product_name", JStr "Fish Oil"); ("brand_name", JStr "Nature Made")].

(** A service that is down. *)
Definition failing_world : world :=
  {| http_get := fun _ => Raise (RequestException "503 Server Error");
     repr_of := fun _ => "<repr>";
     json_dumps := fun _ => "<json>" |}.


(** A service that answers with a list instead of an object. *)
Definition list_world : world :=
  {| http_get := fun _ => Ok (JArr [JStr "unexpected"]);
     repr_of := fun _ => "<repr>";
     json_dumps := fun _ => "<json>" |}.

Definition brand_search (raw : bool) : args :=
  {| product := None; ingredient := None; brand := Some "nature made";
     label := None; limit := Some 5; json_flag := raw |}.

Definition fish_oil : dict :=
  [("dsld_id", JInt 12345); ("product_name", JStr "Fish Oil");
   ("brand_name", JStr "Nature Made")].

(** A service with one product; the renderings of floats, lists and
    dicts and of whole documents are placeholders. *)
Definition example_world : world :=
  {| http_get := fun _ => Ok (JObj [("products", JArr [JObj fish_oil])]);
     repr_of := fun _ => "<repr>";
     json_dumps := fun _ => "<json>" |}.

Definition label_and_brand : args :=
  {| product := None; ingredient := None; brand := Some "nature made";
     label := Some "123456"; limit := None; json_flag := false |}.

Definition empty_label_and_brand : args :=
  {| product := None; ingredient := None; brand := Some "nature made";
     label := Some ""; limit := None; json_flag := false |}.

End Query.

(** * Facts about the food-text builder *)

Module BuilderFacts.
Import Embeddings.

Lemma rbind_ok {A B} (a : A) (k : A -> result B) : rbind (Ok a) k = k a.
Proof. reflexivity. Qed.

Lemma all_str_app (xs ys : list cell) :
  all_str (xs ++ ys) = rbind (all_str xs) (fun a => rbind (all_str ys) (fun b => Ok (a ++ b))).
Proof.
  induction xs as [|x xs IH]; simpl.
  - destruct (all_str ys); reflexivity.
  - destruct x; simpl; try reflexivity.
    rewrite IH. destruct (all_str xs); simpl; [|reflexivity].
    destruct (all_str ys); reflexivity.
Qed.

Lemma all_str_CStr (ss : list string) : all_str (map CStr ss) = Ok ss.
Proof. induction ss as [|s ss IH]; simpl; [|rewrite IH]; reflexivity. Qed.

Lemma qualifying_of_cons (r : row) (col name : string)
  (cols : list (string * string)) :
  qualifying_of ((col, name) :: cols) r
  = match r !! col with
    | Some v => if positive v then (name, v) :: qualifying_of cols r
                else qualifying_of cols r
    | None => qualifying_of cols r
    end.
Proof.
  unfold qualifying_of. simpl.
  destruct (r !! col) as [v|]; [destruct (positive v)|]; reflexivity.
Qed.

Lemma overflow_bound_pos : 0 < overflow_bound.
Proof. by vm_compute. Qed.

Lemma format_2f_positive_int (n : Z) :
  (0 <? n) = true ->
  format_2f (CInt n)
  = if overflow_bound <=? n then Raise OverflowError
    else Ok (format_fixed 2 (float_value n)).
Proof.
  intros Hpos%Z.ltb_lt. unfold format_2f, float_of_int.
  rewrite Z.abs_eq by lia. by destruct (overflow_bound <=? n).
Qed.

Lemma nonpositive_int_fits (n : Z) :
  (0 <? n) = false -> (overflow_bound <=? n) = false.
Proof.
  intros Hneg%Z.ltb_ge. pose proof overflow_bound_pos.
  apply Z.leb_gt. lia.
Qed.

(** The loop over the nutrient columns: it raises at the first column
    that holds text or an integer too large for a float, and otherwise
    collects the qualifying nutrients. *)
Lemma nutrient_loop (r : row) (cols : list (string * string)) (acc : list string) :
  for_each (nutrient_step r) cols acc =
  if forallb (accepted r) (map fst cols)
  then Ok (acc ++ map shown_entry (qualifying_of cols r))
  else Raise (failure_of r (map fst cols)).
Proof.
  revert acc. induction cols as [|[col name] cols IH]; intros acc.
  - simpl. by rewrite app_nil_r.
  - cbn [for_each map fst forallb failure_of]. rewrite qualifying_of_cons.
    unfold accepted at 1. unfold nutrient_step at 1, contains, getitem.
    destruct (r !! col) as [[|s|n|x shown|negative]|];
      cbn [offence notna rbind gt0 positive andb].
    + apply IH.
    + reflexivity.
    + destruct (0 <? n) eqn:Hpos.
      * cbn [map]. unfold shown_entry at 1. cbn [fst snd].
        rewrite !(format_2f_positive_int _ Hpos).
        destruct (overflow_bound <=? n); [reflexivity|].
        cbn [rbind andb]. rewrite IH.
        destruct (forallb _ _); [|reflexivity].
        by rewrite <- app_assoc.
      * rewrite (nonpositive_int_fits _ Hpos). apply IH.
    + destruct (Qle_bool x 0); cbn [negb rbind format_2f]; rewrite IH;
        destruct (forallb _ _); try reflexivity.
      by rewrite <- app_assoc.
    + destruct negative; cbn [negb rbind format_2f]; rewrite IH;
        destruct (forallb _ _); try reflexivity.
      by rewrite <- app_assoc.
    + apply IH.
Qed.

Lemma description_step {B} (r : row) (col : string) (parts : list cell)
  (K : list cell -> result B) :
  rbind (if notna_get r col
         then rbind (getitem r col) (fun v => Ok (parts ++ [v]))
         else Ok parts) K
  = K (parts ++ present r col).
Proof.
  unfold notna_get, getitem, present.
  destruct (r !! col) as [v|]; simpl; [destruct (notna v); simpl|];
    by rewrite ?app_nil_r.
Qed.

Lemma text_step {B} (r : row) (col prefix : string) (parts : list cell)
  (K : list cell -> result B) :
  rbind (if notna_get r col
         then rbind (getitem r col)
                (fun v => Ok (parts ++ [CStr (prefix +:+ py_str v)]))
         else Ok parts) K
  = K (parts ++ map CStr (labelled r col prefix)).
Proof.
  unfold notna_get, getitem, labelled.
  destruct (r !! col) as [v|]; simpl; [destruct (notna v); simpl|];
    by rewrite ?app_nil_r.
Qed.

(** What the builder computes, on every row. *)
Lemma create_food_text_unfold (r : row) :
  create_food_text r =
  if forallb (accepted r) (map fst nutrient_cols)
  then join " | "
         (present r "food_description"
          ++ map CStr (labelled r "food_common_name" "Also known as: "
                       ++ labelled r "category" "Category: "
                       ++ labelled r "brand_name" "Brand: "
                       ++ segment_of (firstn 5 (map shown_entry (qualifying r)))))
  else Raise (failure_of r (map fst nutrient_cols)).
Proof.
  unfold create_food_text.
  rewrite (description_step r "food_description" []).
  rewrite (text_step r "food_common_name" "Also known as: ").
  rewrite (text_step r "category" "Category: ").
  rewrite (text_step r "brand_name" "Brand: ").
  rewrite nutrient_loop.
  destruct (forallb _ _); [|reflexivity].
  rewrite rbind_ok, app_nil_l. fold (qualifying r).
  f_equal. rewrite !map_app, <- !app_assoc. simpl.
  do 4 f_equal.
  destruct (map shown_entry (qualifying r)); simpl; by rewrite ?app_nil_r.
Qed.

Lemma description_text (r : row) :
  text_or_missing r "food_description" = true ->
  present r "food_description" = map CStr (labelled r "food_description" "").
Proof.
  unfold text_or_missing, present, labelled.
  destruct (r !! "food_description") as [[]|]; simpl;
    intros; try discriminate; reflexivity.
Qed.







Lemma join_texts (sep : string) (ss : list string) :
  join sep (map CStr ss) = Ok (String.concat sep ss).
Proof. unfold join. by rewrite all_str_CStr. Qed.













End BuilderFacts.

(** * Facts about runs *)

Module RunFacts.

Section Runs.
Context {E A B : Type}.

Lemma trace_bind (p : run E A) (k : A -> run E B) :
  trace (bind p k)
  = trace p ++ match ending p with
               | Done a => trace (k a)
               | _ => []
               end.
Proof.
  destruct p as [t [a|status|e]]; simpl; rewrite ?app_nil_r; try done.
  by destruct (k a).
Qed.

Lemma ending_bind (p : run E A) (k : A -> run E B) :
  ending (bind p k)
  = match ending p with
    | Done a => ending (k a)
    | Exit status => Exit status
    | Uncaught e => Uncaught e
    end.
Proof.
  destruct p as [t [a|status|e]]; simpl; try done. by destruct (k a).
Qed.

Lemma bind_emit (e : E) (k : unit -> run E B) :
  bind (emit e) k = (e :: trace (k tt), ending (k tt)).
Proof. unfold emit. simpl. by destruct (k tt). Qed.

Lemma bind_lift_ok (a : A) (k : A -> run E B) : bind (lift (Ok a)) k = k a.
Proof. simpl. by destruct (k a). Qed.

Lemma bind_lift_raise (e : exn) (k : A -> run E B) :
  bind (lift (Raise e)) k = ([], Uncaught e).
Proof. reflexivity. Qed.

Lemma bind_pure (a : A) (k : A -> run E B) : bind (pure a) k = k a.
Proof. unfold pure. simpl. by destruct (k a). Qed.

Lemma run_eta (p : run E A) : p = (trace p, ending p).
Proof. by destruct p. Qed.
End Runs.

Lemma bind_done {E A B} (t : list E) (a : A) (k : A -> run E B) :
  bind (t, Done a) k = (t ++ trace (k a), ending (k a)).
Proof. simpl. by destruct (k a). Qed.

End RunFacts.

(** * Facts about the embedding pipeline *)

Module PipelineFacts.
Import Embeddings RunFacts.

Local Open Scope run_scope.


(** The provider without a credential: four lines of remediation, exit
    status 1, and no call to the service. *)
Lemma provider_without_key (w : world) (texts : list string) (b : Z) :
  openai_installed w = true ->
  truthy_str (environ w !! "OPENAI_API_KEY") = false ->
  generate_openai_embeddings w texts b = (remediation, Exit 1).
Proof.
  intros Hinst Hkey. unfold generate_openai_embeddings.
  rewrite Hinst, Hkey. reflexivity.
Qed.

Lemma provider_without_openai (w : world) (texts : list string) (b : Z) :
  openai_installed w = false ->
  generate_openai_embeddings w texts b
  = ([Print "Error: openai library required. Install with: pip install openai"],
     Exit 1).
Proof. intros Hinst. unfold generate_openai_embeddings. by rewrite Hinst. Qed.

(** C6: when the input path does not exist the run prints one
    diagnostic and exits with status 1; the output directory is neither
    created nor written to. *)
Theorem missing_input_exits (w : world) (a : args) :
  path_exists w (input a) = false ->
  ending (script w a) = Exit 1
  /\ exit_status (script w a) = 1
  /\ (exists diagnostic, trace (script w a) = [Print diagnostic])
  /\ main w a = ([Print ("Error: Input file not found: " +:+ input a)], Exit 1)
  /\ existsb is_write (trace (script w a)) = false.
Proof.
  intros Hmissing.
  assert (Hmain : main w a
                  = ([Print ("Error: Input file not found: " +:+ input a)], Exit 1))
    by (unfold main; rewrite Hmissing; reflexivity).
  unfold script, exit_status. rewrite Hmain.
  destruct (pandas_installed w); simpl; eauto 10.
Qed.

(** The pipeline after the credential check has failed. *)
Lemma process_without_key (w : world) (a : args) (out : string) (df : list row) :
  local a = false ->
  truthy_str (environ w !! "OPENAI_API_KEY") = false ->
  exit_status (process w a out df) = 1
  /\ existsb is_network (trace (process w a out df)) = false.
Proof.
  intros Hlocal Hkey. unfold process, exit_status, print. rewrite Hlocal.
  rewrite !bind_emit. cbn [trace ending existsb is_network orb].
  destruct (map_result create_food_text df) as [texts|e].
  - rewrite bind_lift_ok.
    destruct (openai_installed w) eqn:Hinst.
    + rewrite bind_emit, provider_without_key by done. by vm_compute.
    + rewrite bind_emit, provider_without_openai by done. by vm_compute.
  - by rewrite bind_lift_raise.
Qed.

(** [main] once the file is found and read: the loading events, then
    the pipeline on the rows the limit leaves. *)
Lemma main_loaded (w : world) (a : args) (df : list row) :
  path_exists w (input a) = true ->
  read_csv w (input a) = Ok df ->
  main w a
  = (loading_events a ++ trace (process w a (output_dir_of a) (limited a df)),
     ending (process w a (output_dir_of a) (limited a df))).
Proof.
  intros Hexists Hread. unfold main, print, loading_events, limited.
  rewrite Hexists, Hread. simpl negb. cbv iota.
  fold (output_dir_of a). rewrite !bind_emit, bind_lift_ok.
  destruct (truthy_int (limit a)).
  - rewrite (bind_emit _ (fun _ => pure _)). unfold pure.
    cbn [trace ending fst snd]. by rewrite bind_done.
  - by rewrite bind_pure.
Qed.

Lemma main_unreadable (w : world) (a : args) (e : exn) :
  path_exists w (input a) = true ->
  read_csv w (input a) = Raise e ->
  main w a
  = ([Makedirs (output_dir_of a);
      Print ("Loading data from " +:+ input a +:+ "...")], Uncaught e).
Proof.
  intros Hexists Hread. unfold main, print. rewrite Hexists, Hread.
  simpl negb. cbv iota. fold (output_dir_of a).
  by rewrite !bind_emit, bind_lift_raise.
Qed.

Lemma loading_events_quiet (a : args) :
  existsb is_network (loading_events a) = false.
Proof. unfold loading_events. by destruct (truthy_int (limit a)). Qed.

(** C7: without [--local] and with the credential variable unset, the
    run ends with status 1 and never calls the embedding service; the
    provider itself prints the remediation lines and exits with status 1
    before its batch loop. *)
Theorem missing_credential_exits (w : world) (a : args) :
  local a = false ->
  environ w !! "OPENAI_API_KEY" = None ->
  exit_status (script w a) = 1
  /\ existsb is_network (trace (script w a)) = false
  /\ (forall texts b,
        ending (generate_openai_embeddings w texts b) = Exit 1
        /\ existsb is_network (trace (generate_openai_embeddings w texts b)) = false
        /\ (openai_installed w = true ->
            trace (generate_openai_embeddings w texts b) = remediation)).
Proof.
  intros Hlocal Hunset.
  assert (Hkey : truthy_str (environ w !! "OPENAI_API_KEY") = false)
    by (by rewrite Hunset).
  assert (Hscript : exit_status (script w a) = 1
                    /\ existsb is_network (trace (script w a)) = false).
  { unfold script.
    destruct (pandas_installed w); [|by vm_compute]. simpl negb. cbv iota.
    destruct (path_exists w (input a)) eqn:Hexists;
      [|by unfold main; rewrite Hexists; vm_compute].
    destruct (read_csv w (input a)) as [df|e] eqn:Hread.
    - rewrite (main_loaded _ _ _ Hexists Hread).
      destruct (process_without_key w a (output_dir_of a) (limited a df)
                  Hlocal Hkey) as [Hstatus Hquiet].
      split; [exact Hstatus|].
      cbn [trace fst]. by rewrite existsb_app, loading_events_quiet, Hquiet.
    - by rewrite (main_unreadable _ _ _ Hexists Hread). }
  destruct Hscript as [Hstatus Hquiet].
  split; [exact Hstatus | split; [exact Hquiet|]].
  intros texts b. destruct (openai_installed w) eqn:Hinst.
  - by rewrite provider_without_key.
  - by rewrite provider_without_openai.
Qed.

(** *** The batch loop of the remote provider *)

Lemma slice_chunk {A} (l : list A) (i b : Z) :
  0 <= i <= Z.of_nat (length l) -> 0 <= b ->
  py_slice l i (i + b) = firstn (Z.to_nat b) (skipn (Z.to_nat i) l).
Proof.
  intros Hi Hb. unfold py_slice, clamp_index.
  destruct (Z.ltb_spec i 0); [lia|].
  destruct (Z.ltb_spec (i + b) 0); [lia|].
  rewrite (Z.min_l i) by lia.
  destruct (Z.le_ge_cases (i + b) (Z.of_nat (length l))).
  - rewrite Z.min_l by lia. f_equal. lia.
  - rewrite Z.min_r by lia.
    rewrite !firstn_all2; [done | |]; rewrite length_skipn; lia.
Qed.

Lemma chunks_concat {A} (b m : nat) (l : list A) :
  (0 < b)%nat -> (length l <= m * b)%nat ->
  concat (map (fun k => firstn b (skipn (k * b) l)) (seq 0 m)) = l.
Proof.
  intros Hb. revert l. induction m as [|m IH]; intros l Hlen.
  - destruct l; [done | simpl in Hlen; lia].
  - cbn [seq map concat]. rewrite <- seq_shift, map_map.
    rewrite (map_ext _ (fun k => firstn b (skipn (k * b) (skipn b l)))).
    + rewrite IH; [apply firstn_skipn|]. rewrite length_skipn. lia.
    + intros k. rewrite skipn_skipn. do 2 f_equal. lia.
Qed.


(** The starting indices [range(0, n, b)] for a positive step. *)
Lemma range_starts (n : nat) (b : Z) :
  0 < b ->
  exists m : nat,
    py_range 0 (Z.of_nat n) b
    = Ok (map (fun k => 0 + Z.of_nat k * b) (seq 0 m))
    /\ Z.of_nat m = (Z.of_nat n + b - 1) / b
    /\ (n <= m * Z.to_nat b)%nat
    /\ (forall k, (k < m)%nat -> (k * Z.to_nat b < n)%nat).
Proof.
  intros Hb. unfold py_range.
  destruct (Z.eqb_spec b 0); [lia|].
  destruct (Z.ltb_spec 0 b); [|lia].
  assert (Hceil : (Z.of_nat n + b - 1) / b
                  = if 0 <? Z.of_nat n then (Z.of_nat n - 0 - 1) / b + 1 else 0).
  { destruct (Z.ltb_spec 0 (Z.of_nat n)).
    - replace (Z.of_nat n + b - 1) with (Z.of_nat n - 0 - 1 + 1 * b) by lia.
      by rewrite Z.div_add by lia.
    - replace (Z.of_nat n) with 0 by lia. apply Z.div_small. lia. }
  rewrite <- Hceil.
  set (c := (Z.of_nat n + b - 1) / b).
  assert (Hc0 : 0 <= c) by (apply Z.div_pos; lia).
  assert (Hup : Z.of_nat n <= c * b).
  { pose proof (Z.mul_succ_div_gt (Z.of_nat n + b - 1) b Hb). fold c in H0. lia. }
  assert (Hlow : (c - 1) * b < Z.of_nat n \/ c = 0).
  { pose proof (Z.mul_div_le (Z.of_nat n + b - 1) b Hb). fold c in H0. lia. }
  exists (Z.to_nat c). split; [done|]. split; [lia|]. split.
  - apply Nat2Z.inj_le. rewrite Nat2Z.inj_mul, !Z2Nat.id by lia. done.
  - intros k Hk. apply Nat2Z.inj_lt. rewrite Nat2Z.inj_mul, Z2Nat.id by lia.
    destruct Hlow as [Hlow|Hzero]; [nia|lia].
Qed.

Lemma batch_step_ok (w : world) (texts : list string) (b : Z)
  (acc reply : list vector) (i : Z) :
  embeddings_create w (py_slice texts i (i + b)) = Ok reply ->
  batch_step w texts b acc i
  = ([EmbeddingsCreate "text-embedding-3-small" (py_slice texts i (i + b));
      Print ("  Processed "
             +:+ str_int (Z.min (i + b) (Z.of_nat (length texts)))
             +:+ "/" +:+ str_nat (length texts))],
     Done (acc ++ reply)).
Proof.
  intros Hreply. unfold batch_step, print. cbv zeta.
  rewrite bind_emit. cbv beta. rewrite Hreply, bind_lift_ok, bind_emit.
  reflexivity.
Qed.

(** The loop with a service that answers every batch: one call per
    starting index, the replies appended in order. *)
Lemma batch_loop (w : world) (texts : list string) (b : Z) (starts : list Z) :
  (forall batch, exists vs, embeddings_create w batch = Ok vs) ->
  forall acc,
  exists replies,
    Forall2 (fun i reply =>
               embeddings_create w (py_slice texts i (i + b)) = Ok reply)
            starts replies
    /\ ending (for_run (batch_step w texts b) starts acc)
       = Done (acc ++ concat replies)
    /\ network_inputs (trace (for_run (batch_step w texts b) starts acc))
       = map (fun i => py_slice texts i (i + b)) starts.
Proof.
  intros Hsvc. induction starts as [|i starts IH]; intros acc.
  - exists []. by rewrite app_nil_r.
  - destruct (Hsvc (py_slice texts i (i + b))) as [reply Hreply].
    destruct (IH (acc ++ reply)) as (replies & Hall & Hend & Hnet).
    exists (reply :: replies). split; [by constructor|].
    cbn [for_run]. rewrite (batch_step_ok _ _ _ _ _ _ Hreply), bind_done.
    cbn [trace ending fst snd]. rewrite Hend.
    split; [by rewrite <- app_assoc|].
    unfold network_inputs in *. simpl. f_equal. exact Hnet.
Qed.

Lemma Forall2_concat_replies {A B} (R : A -> B -> Prop)
  (batches : list (list A)) (replies : list (list B)) :
  Forall2 (Forall2 R) batches replies ->
  Forall2 R (concat batches) (concat replies).
Proof.
  induction 1 as [|batch reply batches replies Hhead _ IH]; simpl;
    [constructor | by apply Forall2_app].
Qed.


Lemma example_service_answers (rows : list row) (env : list (string * string))
  (batch : list string) :
  exists vs,
    embeddings_create (example_world rows env) batch = Ok vs
    /\ Forall2 (fun t v => v = length_vector t) batch vs.
Proof.
  exists (map length_vector batch). split; [reflexivity|].
  induction batch; constructor; auto.
Qed.


(** *** The pipeline after the row limit *)

Lemma map_result_length {A B} (f : A -> result B) (xs : list A) (ys : list B) :
  map_result f xs = Ok ys -> length ys = length xs.
Proof.
  revert ys. induction xs as [|x xs IH]; intros ys; simpl.
  - by intros [= <-].
  - destruct (f x); simpl; [|done].
    destruct (map_result f xs) as [ys'|]; simpl; [|done].
    intros [= <-]. simpl. f_equal. by apply IH.
Qed.

Lemma make_items_spec (texts : list string) (embeddings : list vector)
  (rows : list row) (start : nat) (entries : list item) :
  map_result (make_item texts embeddings) (enumerate start rows) = Ok entries ->
  length entries = length rows
  /\ forall i it, nth_error entries i = Some it ->
       nth_error texts (start + i) = Some (text it)
       /\ nth_error embeddings (start + i) = Some (embedding it).
Proof.
  revert start entries. induction rows as [|r rows IH]; intros start entries.
  - simpl. intros [= <-]. split; [done|]. by intros [|i] it.
  - cbn [enumerate map_result]. unfold make_item at 1, py_index.
    destruct (nth_error texts start) as [t|] eqn:Ht; [|done].
    destruct (nth_error embeddings start) as [e|] eqn:He; [|done].
    cbn [rbind].
    destruct (map_result _ (enumerate (S start) rows)) as [rest|] eqn:Hrest;
      [|done].
    cbn [rbind]. intros [= <-]. destruct (IH _ _ Hrest) as [Hlen Hnth].
    split; [simpl; by f_equal|].
    intros [|i] it; simpl.
    + intros [= <-]. simpl. by rewrite Nat.add_0_r.
    + intros Hit. rewrite Nat.add_succ_r. by apply Hnth.
Qed.

(** The guard of the dimension: no index into an empty list. *)
Lemma dimension_of_ok (embeddings : list vector) :
  dimension_of embeddings
  = Ok (match embeddings with [] => O | first :: _ => length first end).
Proof. by destruct embeddings. Qed.

Lemma batch_loop_writes_nothing (w : world) (texts : list string) (b : Z)
  (starts : list Z) (acc : list vector) :
  written (trace (for_run (batch_step w texts b) starts acc)) = [].
Proof.
  revert acc. induction starts as [|i starts IH]; intros acc; [done|].
  cbn [for_run].
  destruct (embeddings_create w (py_slice texts i (i + b))) as [reply|e] eqn:Hreply.
  - rewrite (batch_step_ok _ _ _ _ _ _ Hreply), bind_done.
    cbn [trace ending fst snd]. unfold written in *. simpl. apply IH.
  - unfold batch_step, print. cbv zeta. rewrite bind_emit. cbv beta.
    by rewrite Hreply, bind_lift_raise.
Qed.

Lemma remote_provider_writes_nothing (w : world) (texts : list string) (b : Z) :
  written (trace (generate_openai_embeddings w texts b)) = [].
Proof.
  unfold generate_openai_embeddings, print.
  destruct (openai_installed w); [|done]. simpl negb. cbv iota.
  destruct (truthy_str _); [|done]. simpl negb. cbv iota.
  rewrite bind_emit. cbv beta.
  destruct (py_range _ _ _) as [starts|e].
  - rewrite bind_lift_ok. cbn [trace fst]. unfold written. simpl.
    apply batch_loop_writes_nothing.
  - by rewrite bind_lift_raise.
Qed.

Lemma local_provider_writes_nothing (w : world) (texts : list string) (b : Z) :
  written (trace (generate_local_embeddings w texts b)) = [].
Proof.
  unfold generate_local_embeddings, print.
  destruct (sentence_transformers_installed w); [|done].
  by destruct (encode w texts b).
Qed.

(** A run of the pipeline that completes has built one text per row and
    written one document with one item per row, item [i] holding text
    [i]. *)
Lemma process_completes (w : world) (a : args) (out : string) (df : list row) :
  ending (process w a out df) = Done tt ->
  exists texts doc,
    map_result create_food_text df = Ok texts
    /\ length texts = length df
    /\ written (trace (process w a out df)) = [doc]
    /\ length (items doc) = length df
    /\ forall i it, nth_error (items doc) i = Some it ->
         nth_error texts i = Some (text it).
Proof.
  unfold process, print. rewrite !bind_emit. cbv beta. cbn [trace ending fst snd].
  destruct (map_result create_food_text df) as [texts|e] eqn:Htexts;
    [|by rewrite bind_lift_raise].
  rewrite bind_lift_ok.
  match goal with
  | |- context [bind ?p _] =>
      match type of p with
      | run event (list vector * string) => set (provider := p)
      end
  end.
  assert (Hquiet : written (trace provider) = []).
  { unfold provider, print. destruct (local a); rewrite bind_emit; cbv beta;
      cbn [trace fst]; rewrite trace_bind; unfold written; simpl;
      rewrite omap_app.
    - fold (written (trace (generate_local_embeddings w texts (batch_size a)))).
      rewrite local_provider_writes_nothing.
      by destruct (ending (generate_local_embeddings _ _ _)).
    - fold (written (trace (generate_openai_embeddings w texts (batch_size a)))).
      rewrite remote_provider_writes_nothing.
      by destruct (ending (generate_openai_embeddings _ _ _)). }
  destruct provider as [tp [[embeddings model_name]|status|e]]; try done.
  rewrite bind_done. cbn [trace ending fst snd] in *.
  rewrite bind_emit. cbv beta. cbn [trace ending fst snd].
  rewrite dimension_of_ok, bind_lift_ok.
  destruct (map_result (make_item texts embeddings) (enumerate 0 df))
    as [entries|e] eqn:Hentries; [|by rewrite bind_lift_raise].
  destruct (make_items_spec _ _ _ _ _ Hentries) as [Hlen Hnth].
  rewrite bind_lift_ok, !bind_emit. cbv beta. cbn [trace ending fst snd].
  rewrite bind_lift_ok. intros _.
  eexists texts, _. split; [done|].
  split; [by eapply map_result_length|]. split.
  - unfold written in *. simpl. rewrite omap_app, Hquiet. reflexivity.
  - split; [exact Hlen|]. intros i it Hit. by apply (Hnth i it).
Qed.

Lemma loading_events_write_no_document (a : args) :
  written (loading_events a) = [].
Proof. unfold loading_events. by destruct (truthy_int (limit a)). Qed.

Lemma head_positive (df : list row) (n : Z) :
  0 < n < Z.of_nat (length df) -> head df n = firstn (Z.to_nat n) df.
Proof.
  intros Hn. unfold head.
  replace n with (0 + n) at 1 by lia. by rewrite slice_chunk by lia.
Qed.

Lemma head_nil (n : Z) : head [] n = [].
Proof. unfold head, py_slice. by rewrite skipn_nil, firstn_nil. Qed.

(** C1, as the code has it: for a positive N below the number of rows,
    the run goes on with exactly the first N rows: every later step
    (text building, embedding, assembly and writing of the document) is
    the pipeline on those N rows, it reports N loaded items, and a run
    that completes has built N texts and written one document of N
    items, item i holding the text of row i. *)
Theorem limit_truncates (w : world) (a : args) (rows : list row) (N : Z) :
  pandas_installed w = true ->
  path_exists w (input a) = true ->
  read_csv w (input a) = Ok rows ->
  limit a = Some N ->
  0 < N < Z.of_nat (length rows) ->
  let kept := firstn (Z.to_nat N) rows in
  Z.of_nat (length kept) = N
  /\ script w a
     = (loading_events a ++ trace (process w a (output_dir_of a) kept),
        ending (process w a (output_dir_of a) kept))
  /\ In (Print ("Loaded " +:+ str_int N +:+ " food items")) (trace (script w a))
  /\ (ending (script w a) = Done tt ->
      exists texts doc,
        map_result create_food_text kept = Ok texts
        /\ Z.of_nat (length texts) = N
        /\ written (trace (script w a)) = [doc]
        /\ Z.of_nat (length (items doc)) = N
        /\ forall i it, nth_error (items doc) i = Some it ->
             nth_error texts i = Some (text it)).
Proof.
  intros Hpandas Hexists Hread Hlimit HN kept.
  assert (Hkept : Z.of_nat (length kept) = N)
    by (unfold kept; rewrite length_firstn; lia).
  assert (Hrows : limited a rows = kept).
  { unfold limited. rewrite Hlimit. cbn [truthy_int default].
    destruct (Z.eqb_spec N 0); [lia|]. by apply head_positive. }
  assert (Hscript : script w a
     = (loading_events a ++ trace (process w a (output_dir_of a) kept),
        ending (process w a (output_dir_of a) kept))).
  { unfold script. rewrite Hpandas. simpl negb. cbv iota.
    by rewrite (main_loaded _ _ _ Hexists Hread), Hrows. }
  split; [exact Hkept|]. split; [exact Hscript|]. rewrite Hscript.
  cbn [trace ending fst snd]. split.
  - apply in_or_app. right. unfold process, print. rewrite bind_emit.
    left. unfold str_nat. by rewrite Hkept.
  - intros Hdone.
    destruct (process_completes _ _ _ _ Hdone)
      as (texts & doc & Htexts & Hlen & Hdoc & Hitems & Hnth).
    exists texts, doc. split; [exact Htexts|]. split; [lia|]. split.
    + unfold written in *.
      rewrite omap_app. fold (written (loading_events a)).
      by rewrite loading_events_write_no_document.
    + split; [lia | exact Hnth].
Qed.

Lemma limit_truncates_witness :
  Z.of_nat (length (firstn (Z.to_nat 1) [cheddar; celery; cheddar])) = 1
  /\ In (Print "Loaded 1 food items")
       (trace (script (example_world [cheddar; celery; cheddar] with_key)
                 (example_args "usda.csv" (Some 1) 100))).
Proof.
  destruct (limit_truncates
              (example_world [cheddar; celery; cheddar] with_key)
              (example_args "usda.csv" (Some 1) 100)
              [cheddar; celery; cheddar] 1)
    as (Hkept & _ & Hloaded & _); try reflexivity.
  - simpl. lia.
  - split; [exact Hkept | exact Hloaded].
Defined.

(** C1 as stated fails at N = 0: the limit is tested for truth, so
    [--limit 0] leaves the two rows of the dataset in place and both are
    processed. *)
Lemma limit_zero_processes_every_row :
  let run := script (example_world [cheddar; celery] with_key)
               (example_args "usda.csv" (Some 0) 100) in
  0 < Z.of_nat (length [cheddar; celery])
  /\ ending run = Done tt
  /\ In (Print "Loaded 2 food items") (trace run)
  /\ network_inputs (trace run)
     = [["Cheese, cheddar | Category: Dairy | Nutrients per 100g: protein: 22.87g/100g, fat: 33.30g/100g, carbs: 3.37g/100g, calcium: 710.00g/100g, iron: 0.12g/100g";
         "Celery, raw | Category: Vegetables | Nutrients per 100g: protein: 0.69g/100g, fat: 0.17g/100g, carbs: 2.97g/100g, calcium: 40.00g/100g, iron: 0.20g/100g"]]
  /\ map (fun doc => (count doc, map fdc_id (items doc))) (written (trace run))
     = [(2%nat, ["328637"; "169988"])].
Proof. vm_compute. intuition. Qed.

(** C10, as the code has it: on the remote path, with the credential
    set, a dataset without rows and a batch size other than zero, the
    run completes, calls the service not once, and writes one document
    whose count is 0, whose dimension is 0 and whose item list is empty;
    the dimension never indexes an empty list. *)
Theorem empty_dataset_completes (w : world) (a : args) :
  pandas_installed w = true ->
  path_exists w (input a) = true ->
  read_csv w (input a) = Ok [] ->
  local a = false ->
  openai_installed w = true ->
  truthy_str (environ w !! "OPENAI_API_KEY") = true ->
  batch_size a <> 0 ->
  ending (script w a) = Done tt
  /\ written (trace (script w a)) = [empty_document]
  /\ existsb is_network (trace (script w a)) = false
  /\ forall embeddings, exists d, dimension_of embeddings = Ok d.
Proof.
  intros Hpandas Hexists Hread Hlocal Hinst Hkey Hbatch.
  assert (Hrange : py_range 0 (Z.of_nat (length (@nil string))) (batch_size a)
                   = Ok []).
  { unfold py_range. destruct (Z.eqb_spec (batch_size a) 0); [done|].
    by destruct (0 <? batch_size a). }
  assert (Hprovider : generate_openai_embeddings w [] (batch_size a)
                      = ([Print "Generating embeddings for 0 texts..."], Done [])).
  { unfold generate_openai_embeddings, print. rewrite Hinst, Hkey.
    simpl negb. cbv iota. rewrite bind_emit. cbv beta.
    by rewrite Hrange, bind_lift_ok. }
  assert (Hrows : limited a [] = []).
  { unfold limited. destruct (truthy_int (limit a)); [apply head_nil | done]. }
  assert (Hprocess : exists events,
             process w a (output_dir_of a) [] = (events, Done tt)
             /\ written events = [empty_document]
             /\ existsb is_network events = false).
  { unfold process, print. rewrite Hlocal. cbn [map_result length].
    rewrite !bind_emit, bind_lift_ok, bind_emit. cbv beta.
    rewrite Hprovider. eexists. split; [reflexivity|]. by split. }
  destruct Hprocess as (events & Hprocess & Hdoc & Hquiet).
  unfold script. rewrite Hpandas. simpl negb. cbv iota.
  rewrite (main_loaded _ _ _ Hexists Hread), Hrows, Hprocess.
  cbn [trace ending fst snd].
  split; [reflexivity|]. split; [|split].
  - unfold written in *. rewrite omap_app. fold (written (loading_events a)).
    by rewrite loading_events_write_no_document.
  - by rewrite existsb_app, loading_events_quiet.
  - intros embeddings. rewrite dimension_of_ok. eauto.
Qed.

Lemma empty_dataset_completes_witness :
  ending (script (example_world [] with_key) (example_args "usda.csv" None 100))
  = Done tt
  /\ written (trace (script (example_world [] with_key)
                       (example_args "usda.csv" None 100)))
     = [empty_document].
Proof.
  destruct (empty_dataset_completes (example_world [] with_key)
              (example_args "usda.csv" None 100))
    as (Hdone & Hdoc & _); try reflexivity.
  - discriminate.
  - split; [exact Hdone | exact Hdoc].
Defined.

(** C10 as stated fails at [--batch-size 0]: [range] refuses a zero
    step, the exception leaves the provider, and nothing is written. *)
Lemma empty_dataset_zero_batch_raises :
  let run := script (example_world [] with_key)
               (example_args "usda.csv" None 0) in
  ending run = Uncaught ValueError
  /\ written (trace run) = [].
Proof. vm_compute. split; reflexivity. Qed.

Lemma missing_input_exits_witness :
  path_exists (example_world [cheddar] with_key) "nowhere.csv" = false
  /\ script (example_world [cheddar] with_key)
       (example_args "nowhere.csv" None 100)
     = ([Print "Error: Input file not found: nowhere.csv"], Exit 1).
Proof.
  split; [reflexivity|].
  destruct (missing_input_exits (example_world [cheddar] with_key)
              (example_args "nowhere.csv" None 100))
    as (_ & _ & _ & Hmain & _); [reflexivity|].
  exact Hmain.
Defined.

Lemma missing_credential_exits_witness :
  exit_status (script (example_world [cheddar] [])
                 (example_args "usda.csv" None 100)) = 1
  /\ existsb is_network
       (trace (script (example_world [cheddar] [])
                 (example_args "usda.csv" None 100))) = false.
Proof.
  destruct (missing_credential_exits (example_world [cheddar] [])
              (example_args "usda.csv" None 100))
    as (Hstatus & Hquiet & _); try reflexivity.
  split; [exact Hstatus | exact Hquiet].
Defined.

End PipelineFacts.

(** * Facts about the supplement query tool *)

Module QueryFacts.
Import Query RunFacts.

Local Open Scope run_scope.

(** C2, as the code has it: the three searches take a limit, 10 when
    none is passed, and send it as the [pagesize] query parameter with a
    timeout of 30 seconds; the label detail takes no limit and sends no
    query parameter at all. *)
Theorem searches_send_page_size (w : world) (term : string) (limit : option Z) :
  (trace (search_products w term limit)
     = [HttpGet (browse "name" term (default 10 limit))]
   /\ trace (search_by_ingredient w term limit)
     = [HttpGet (browse "ingredient" term (default 10 limit))]
   /\ trace (search_by_brand w term limit)
     = [HttpGet (browse "brandname" term (default 10 limit))])
  /\ (forall key, In key ["name"; "ingredient"; "brandname"] ->
        page_size (browse key term (default 10 limit))
        = Some (PInt (default 10 limit)))
  /\ (forall op, op <> LabelDetail ->
        exists req, trace (call op w term limit) = [HttpGet req]
                    /\ page_size req = Some (PInt (default 10 limit))
                    /\ timeout req = 30)
  /\ trace (get_product_label w term) = [HttpGet (label_request term)]
  /\ params (label_request term) = [].
Proof.
  assert (Hfetch : forall req, trace (fetch w req) = [HttpGet req]).
  { intros req. unfold fetch. rewrite bind_emit. by destruct (http_get w req). }
  assert (Hsize : forall key, In key ["name"; "ingredient"; "brandname"] ->
            page_size (browse key term (default 10 limit))
            = Some (PInt (default 10 limit))).
  { intros key [<-|[<-|[<-|[]]]]; reflexivity. }
  split; [|split; [exact Hsize|split; [|split]]].
  - unfold search_products, search_by_ingredient, search_by_brand.
    by rewrite !Hfetch.
  - intros [] Hop; try done; eexists; (split; [apply Hfetch|]);
      (split; [apply Hsize; simpl; tauto | reflexivity]).
  - apply Hfetch.
  - reflexivity.
Qed.

(** C2 as stated fails for the label detail: a limit cannot be passed to
    it, and its request carries no page size. *)
Lemma label_detail_sends_no_page_size :
  trace (call LabelDetail example_world "123456" (Some 5))
  = [HttpGet {| url := "https://api.ods.od.nih.gov/dsld/v9/label/123456";
                params := []; timeout := 30 |}]
  /\ map page_size
       (http_requests (trace (call LabelDetail example_world "123456" (Some 5))))
     = [None].
Proof. vm_compute. split; reflexivity. Qed.

(** C5: for every product dictionary the presenter returns a text, the
    lines ID, Name, Brand and Type, each with the value of its field or
    N/A when the field is absent, followed by a Serving line exactly
    when the dictionary has the key serving_size; no lookup raises. *)
Theorem format_product_lines (w : world) (product : dict) :
  format_product w product
  = Ok (String.concat nl
          ([ "  ID: " +:+ shown_field w product "dsld_id";
             "  Name: " +:+ shown_field w product "product_name";
             "  Brand: " +:+ shown_field w product "brand_name";
             "  Type: " +:+ shown_field w product "product_type" ]
           ++ serving_line w product))
  /\ (forall key, dict_get product key = None ->
        shown_field w product key = "N/A")
  /\ (serving_line w product = [] <-> dict_contains product "serving_size" = false)
  /\ (forall v, dict_get product "serving_size" = Some v ->
        serving_line w product = ["  Serving: " +:+ py_str w v]).
Proof.
  split; [|split; [|split]].
  - unfold format_product, product_lines, dict_contains, dict_getitem,
      serving_line, shown_field.
    destruct (dict_get product "serving_size");
      destruct (dict_get product "dsld_id");
      destruct (dict_get product "product_name");
      destruct (dict_get product "brand_name");
      destruct (dict_get product "product_type"); reflexivity.
  - intros key Hkey. unfold shown_field. by rewrite Hkey.
  - unfold serving_line, dict_contains.
    destruct (dict_get product "serving_size"); split; congruence.
  - intros v Hv. unfold serving_line. by rewrite Hv.
Qed.

(** *** One request per invocation *)

Lemma quiet_bind {A B} (p : prog A) (k : A -> prog B) :
  quiet p -> (forall a, quiet (k a)) -> quiet (bind p k).
Proof.
  unfold quiet, http_requests. intros Hp Hk.
  rewrite trace_bind, omap_app, Hp.
  destruct (ending p); [apply Hk | done | done].
Qed.

Lemma quiet_print (line : string) : quiet (print line).
Proof. done. Qed.

Lemma quiet_lift {A} (r : result A) : quiet (lift r).
Proof. by destruct r. Qed.

Lemma quiet_pure {A} (a : A) : quiet (pure a : prog A).
Proof. done. Qed.

Lemma quiet_show_products (w : world) (entries : list (nat * json)) :
  quiet (for_run (show_product w) entries tt).
Proof.
  induction entries as [|[i product] entries IH]; [done|].
  cbn [for_run]. apply quiet_bind; [|by intros []].
  unfold show_product.
  repeat (apply quiet_bind; [first [apply quiet_print | apply quiet_lift]|intros]).
  apply quiet_print.
Qed.

Lemma quiet_present (w : world) (a : args) (result : json) :
  quiet (present w a result).
Proof.
  unfold present. destruct (json_flag a); [apply quiet_print|].
  repeat (apply quiet_bind; [first [apply quiet_print | apply quiet_lift]|intros]).
  apply quiet_show_products.
Qed.

Lemma handle_requests (p : prog unit) :
  http_requests (trace (handle p)) = http_requests (trace p).
Proof.
  destruct p as [t [[]|status|[]]]; try done;
    unfold handle, http_requests; cbn [trace fst];
    by rewrite omap_app, app_nil_r.
Qed.

(** A message, one request, then a continuation that sends none. *)
Lemma fetch_then_quiet (w : world) (line : string) (req : request)
  (k : json -> prog unit) :
  (forall result, quiet (k result)) ->
  http_requests
    (trace (handle (print line;; result <- fetch w req;; k result)))
  = [req].
Proof.
  intros Hk. rewrite handle_requests. unfold print, fetch.
  rewrite bind_emit. cbv beta. cbn [trace fst].
  rewrite trace_bind, bind_emit. cbv beta. cbn [trace ending fst snd].
  unfold http_requests. cbn [omap list_omap]. rewrite omap_app.
  destruct (http_get w req) as [result|e]; cbn [lift trace ending fst snd].
  - change (omap _ (trace (k result))) with (http_requests (trace (k result))).
    by rewrite (Hk result).
  - reflexivity.
Qed.

Lemma quiet_label_detail (w : world) (a : args) (result : json) :
  quiet (if json_flag a then print (json_dumps w result)
         else print (nl +:+ rule);; print "Product Label Details";;
              print rule;; print (json_dumps w result)).
Proof.
  destruct (json_flag a); [apply quiet_print|].
  repeat (apply quiet_bind; [apply quiet_print|intros]). apply quiet_print.
Qed.

(** C9, as the code has it: when more than one search flag is given
    with a value that is not empty, the run sends exactly one HTTP
    request, that of the operation picked by precedence: label, then
    ingredient, then brand, then product. *)
Theorem one_request_by_precedence (w : world) (a : args) :
  (2 <= flags_given a)%nat ->
  exists req,
    selected a = Some req
    /\ http_requests (trace (main w a)) = [req].
Proof.
  unfold flags_given, selected, main, dispatch.
  destruct (label a) as [[|c1 s1]|]; destruct (ingredient a) as [[|c2 s2]|];
    destruct (brand a) as [[|c3 s3]|]; destruct (product a) as [[|c4 s4]|];
    cbn; intros Hflags; try lia; eexists; (split; [reflexivity|]);
    apply fetch_then_quiet; intros result;
    first [apply quiet_present | apply quiet_label_detail].
Qed.

Lemma one_request_by_precedence_witness :
  (2 <= flags_given label_and_brand)%nat
  /\ http_requests (trace (main example_world label_and_brand))
     = [label_request "123456"].
Proof.
  split; [vm_compute; lia|].
  destruct (one_request_by_precedence example_world label_and_brand)
    as (req & Hsel & Hreq); [vm_compute; lia|].
  rewrite Hreq. vm_compute in Hsel. injection Hsel as <-. reflexivity.
Defined.

(** C9 as stated fails when a flag is given with an empty value: with
    [--label ""] and [--brand "nature made"] both flags are supplied,
    yet the label is skipped and the brand search is the one request. *)
Lemma empty_label_is_skipped :
  label empty_label_and_brand = Some ""
  /\ brand empty_label_and_brand = Some "nature made"
  /\ http_requests (trace (main example_world empty_label_and_brand))
     = [browse "brandname" "nature made" 10].
Proof. vm_compute. repeat split. Qed.

End QueryFacts.

(** * More facts about the food-text builder *)

Module BuilderExtras.
Import Embeddings BuilderFacts.

Lemma description_not_text (r : row) :
  text_or_missing r "food_description" = false ->
  forall rest, all_str (present r "food_description" ++ rest) = Raise TypeError.
Proof.
  unfold text_or_missing, present. intros Hdesc rest.
  destruct (r !! "food_description") as [[]|]; simpl in *; congruence.
Qed.

(** The builder on every row: a text on the well-formed ones, the
    exception of the first nutrient column that is not accepted, and
    [TypeError] for a description that is not text. *)
Lemma create_food_text_cases (r : row) :
  create_food_text r =
  if forallb (accepted r) (map fst nutrient_cols)
  then if text_or_missing r "food_description"
       then Ok (String.concat " | "
                  (labelled r "food_description" ""
                   ++ labelled r "food_common_name" "Also known as: "
                   ++ labelled r "category" "Category: "
                   ++ labelled r "brand_name" "Brand: "
                   ++ segment_of (firstn 5 (map shown_entry (qualifying r)))))
       else Raise TypeError
  else Raise (failure_of r (map fst nutrient_cols)).
Proof.
  rewrite create_food_text_unfold.
  destruct (forallb _ _); [|reflexivity].
  destruct (text_or_missing r "food_description") eqn:Hdesc.
  - by rewrite (description_text _ Hdesc), <- map_app, join_texts.
  - unfold join. by rewrite description_not_text.
Qed.



Lemma agree_accepted (r1 r2 : row) (cols : list string) :
  (forall c, In c cols -> r1 !! c = r2 !! c) ->
  forallb (accepted r1) cols = forallb (accepted r2) cols.
Proof.
  induction cols as [|c cols IH]; intros Hagree; [done|]. simpl.
  rewrite IH by (intros c' Hc'; apply Hagree; simpl; auto).
  unfold accepted at 1 3. by rewrite (Hagree c) by (simpl; auto).
Qed.

Lemma agree_failure (r1 r2 : row) (cols : list string) :
  (forall c, In c cols -> r1 !! c = r2 !! c) ->
  failure_of r1 cols = failure_of r2 cols.
Proof.
  induction cols as [|c cols IH]; intros Hagree; [done|]. cbn [failure_of].
  rewrite IH by (intros c' Hc'; apply Hagree; simpl; auto).
  by rewrite (Hagree c) by (simpl; auto).
Qed.

Lemma agree_qualifying (r1 r2 : row) (cols : list (string * string)) :
  (forall c, In c (map fst cols) -> r1 !! c = r2 !! c) ->
  qualifying_of cols r1 = qualifying_of cols r2.
Proof.
  induction cols as [|[col name] cols IH]; intros Hagree; [done|].
  rewrite !qualifying_of_cons, (Hagree col) by (simpl; auto).
  rewrite IH; [done|]. intros c Hc. apply Hagree. simpl. auto.
Qed.

(** X2: the builder reads the thirteen tracked columns and nothing else:
    rows that agree on them get the same text, or fail alike. *)
Theorem builder_reads_tracked_columns_only (r1 r2 : row) :
  (forall c, In c tracked_cols -> r1 !! c = r2 !! c) ->
  create_food_text r1 = create_food_text r2.
Proof.
  intros Hagree.
  assert (Hnutrients : forall c, In c (map fst nutrient_cols) ->
                                 r1 !! c = r2 !! c).
  { intros c Hc. apply Hagree. unfold tracked_cols. apply in_or_app. auto. }
  assert (Htext : forall c, In c text_cols -> r1 !! c = r2 !! c).
  { intros c Hc. apply Hagree. unfold tracked_cols. apply in_or_app. auto. }
  rewrite !create_food_text_cases. unfold text_or_missing, labelled, qualifying.
  rewrite (agree_accepted _ _ _ Hnutrients), (agree_failure _ _ _ Hnutrients),
    (agree_qualifying _ _ _ Hnutrients).
  rewrite (Htext "food_description"), (Htext "food_common_name"),
    (Htext "category"), (Htext "brand_name") by (simpl; tauto).
  reflexivity.
Qed.

Lemma builder_reads_tracked_columns_only_witness :
  relabelled_cheddar !! "fdc_id" <> cheddar !! "fdc_id"
  /\ create_food_text relabelled_cheddar = create_food_text cheddar.
Proof.
  split; [vm_compute; congruence|].
  apply builder_reads_tracked_columns_only.
  intros c Hc. unfold relabelled_cheddar. apply lookup_insert_ne.
  intros <-. vm_compute in Hc. intuition discriminate.
Defined.

End BuilderExtras.

(** * More facts about runs *)

Module RunExtras.
Import RunFacts.

Section Keeps.
Context {E : Type} (P : E -> Prop) (S : Z -> Prop).

Lemma keeps_bind {A B} (p : run E A) (k : A -> run E B) :
  keeps P S p -> (forall a, keeps P S (k a)) -> keeps P S (bind p k).
Proof.
  unfold keeps. intros [Ht He] Hk. rewrite trace_bind, ending_bind.
  destruct (ending p) as [a| |]; [|by rewrite app_nil_r..].
  destruct (Hk a) as [Hta Hea]. split; [by apply Forall_app|done].
Qed.

Lemma keeps_emit (e : E) : P e -> keeps P S (emit e).
Proof. intros He. split; [by repeat constructor|done]. Qed.

Lemma keeps_pure {A} (a : A) : keeps P S (pure a : run E A).
Proof. by split. Qed.

Lemma keeps_lift {A} (r : result A) : keeps P S (lift r : run E A).
Proof. by destruct r. Qed.

Lemma keeps_exit {A} (status : Z) :
  S status -> keeps P S (sys_exit status : run E A).
Proof. by split. Qed.

Lemma keeps_for_run {A B} (body : A -> B -> run E A) (xs : list B) (acc : A) :
  (forall acc x, keeps P S (body acc x)) -> keeps P S (for_run body xs acc).
Proof.
  intros Hbody. revert acc. induction xs as [|x xs IH]; intros acc.
  - apply keeps_pure.
  - cbn [for_run]. apply keeps_bind; [apply Hbody | apply IH].
Qed.

End Keeps.

(** Walks a program built from binds, conditionals and the primitives. *)
Ltac walk_with hook :=
  repeat first
    [ hook
    | apply keeps_pure
    | apply keeps_lift
    | apply keeps_exit; done
    | apply keeps_emit; done
    | apply keeps_bind; [|intros]
    | apply keeps_for_run; intros
    | match goal with
      | |- keeps _ _ (if ?b then _ else _) => destruct b
      | |- keeps _ _ (let '(_, _) := ?p in _) => destruct p
      end ].

Ltac walk := walk_with fail.

End RunExtras.

(** * More facts about the embedding pipeline *)

Module PipelineExtras.
Import Embeddings RunFacts RunExtras PipelineFacts.

Local Open Scope run_scope.

(** The rows the limit keeps, case by case. *)
Lemma limited_cases (a : args) (df : list row) :
  limited a df
  = match limit a with
    | None => df
    | Some n => if n =? 0 then df else kept_by_head df n
    end
  /\ (forall n, Z.of_nat (length df) <= n -> kept_by_head df n = df)
  /\ (forall n, n < 0 ->
        length (kept_by_head df n) = (length df - Z.to_nat (- n))%nat).
Proof.
  split; [|split].
  - unfold limited, truthy_int. destruct (limit a) as [n|]; [|done].
    destruct (Z.eqb_spec n 0); [done|]. cbn [negb default]. unfold id.
    unfold head, py_slice, kept_by_head, clamp_index.
    change (0 <? 0) with false. cbv iota.
    rewrite (Z.min_l 0) by lia. rewrite skipn_O.
    destruct (Z.ltb_spec n 0); destruct (Z.leb_spec 0 n); try lia.
    + f_equal. lia.
    + destruct (Z.le_ge_cases n (Z.of_nat (length df))).
      * rewrite Z.min_l by lia. f_equal. lia.
      * rewrite Z.min_r by lia. rewrite !firstn_all2; [done|lia|lia].
  - intros n Hn. unfold kept_by_head. destruct (Z.leb_spec 0 n); [|lia].
    apply firstn_all2. lia.
  - intros n Hn. unfold kept_by_head. destruct (Z.leb_spec 0 n); [lia|].
    rewrite length_firstn. lia.
Qed.

Lemma script_keeps (P : event -> Prop) (S : Z -> Prop) (w : world) (a : args) :
  (forall line, P (Print line)) ->
  (forall path, P (Makedirs path)) ->
  (forall path doc, P (WriteJson path doc)) ->
  S 1 ->
  (forall texts, keeps P S (provider_run w a texts)) ->
  keeps P S (script w a).
Proof.
  intros Hprint Hmkdir Hwrite Hone Hprovider.
  unfold script, main, process, print.
  walk_with ltac:(exact (Hprovider _)); auto.
Qed.

Lemma remote_provider_keeps (P : event -> Prop) (S : Z -> Prop) (w : world)
  (texts : list string) (b : Z) :
  (forall line, P (Print line)) ->
  (forall name batch, P (EmbeddingsCreate name batch)) ->
  S 1 ->
  keeps P S (generate_openai_embeddings w texts b).
Proof.
  intros Hprint Hcall Hone.
  unfold generate_openai_embeddings, batch_step, print. walk; auto.
Qed.

Lemma local_provider_keeps (P : event -> Prop) (S : Z -> Prop) (w : world)
  (texts : list string) (b : Z) :
  (forall line, P (Print line)) ->
  (forall name input size, P (Encode name input size)) ->
  S 1 ->
  keeps P S (generate_local_embeddings w texts b).
Proof.
  intros Hprint Hcall Hone. unfold generate_local_embeddings, print.
  walk; auto.
Qed.

(** X4: once the command line is parsed, the exit status of the
    generator is 0 or 1, and 0 exactly when the run completes: every
    [sys.exit] of the import of pandas, of [main] after
    [parser.parse_args()] and of the two providers is a [sys.exit(1)]. *)
Theorem exit_status_zero_or_one (w : world) (a : args) :
  (exit_status (script w a) = 0 \/ exit_status (script w a) = 1)
  /\ (exit_status (script w a) = 0 <-> ending (script w a) = Done tt)
  /\ (forall status, ending (script w a) = Exit status -> status = 1).
Proof.
  assert (Hkeeps : keeps (fun _ => True) (fun status => status = 1) (script w a)).
  { apply script_keeps; try done. intros texts. unfold provider_run, print.
    walk; first [by apply remote_provider_keeps | by apply local_provider_keeps]. }
  destruct Hkeeps as [_ Hexit]. unfold exit_status.
  destruct (ending (script w a)) as [[]|status|e]; subst;
    repeat split; auto; try discriminate; congruence.
Qed.

Lemma no_network_events (t : list event) :
  Forall (fun e => is_network e = false) t -> existsb is_network t = false.
Proof.
  induction 1 as [|e t He _ IH]; [done|]. simpl. by rewrite He, IH.
Qed.

(** X5: with [--local] the run never calls the embedding service, the local
    model gets the whole list of texts in a single call, and the run is
    the same whatever the credential, the openai library and the service
    are. *)
Theorem local_run_is_offline (w : world) (a : args) :
  local a = true ->
  existsb is_network (trace (script w a)) = false
  /\ (forall texts b,
        sentence_transformers_installed w = true ->
        encode_calls (trace (generate_local_embeddings w texts b)) = [(texts, b)])
  /\ (forall installed env service,
        script {| pandas_installed := pandas_installed w;
                  openai_installed := installed;
                  sentence_transformers_installed :=
                    sentence_transformers_installed w;
                  environ := env;
                  path_exists := path_exists w;
                  read_csv := read_csv w;
                  embeddings_create := service;
                  encode := encode w;
                  getsize := getsize w |} a
        = script w a).
Proof.
  intros Hlocal. split; [|split].
  - apply no_network_events.
    apply (script_keeps _ (fun _ => True)); try done.
    intros texts. unfold provider_run, print. rewrite Hlocal.
    walk. by apply local_provider_keeps.
  - intros texts b Hinst. unfold generate_local_embeddings, print.
    rewrite Hinst. simpl negb. cbv iota.
    rewrite !bind_emit. cbv beta. by destruct (encode w texts b).
  - intros installed env service.
    unfold script, main, process. rewrite Hlocal. reflexivity.
Qed.

Lemma local_run_is_offline_witness :
  existsb is_network
    (trace (script (example_world [cheddar; celery] [])
              (local_args "usda.csv" None))) = false
  /\ ending (script (example_world [cheddar; celery] [])
               (local_args "usda.csv" None)) = Done tt.
Proof.
  split.
  - apply (local_run_is_offline (example_world [cheddar; celery] [])
             (local_args "usda.csv" None)). reflexivity.
  - vm_compute. reflexivity.
Defined.

Lemma no_write_events (t : list event) :
  Forall (fun e => match e with WriteJson _ _ => False | _ => True end) t ->
  write_events t = [].
Proof.
  induction 1 as [|e t He _ IH]; [done|].
  unfold write_events in *. destruct e; simpl; done.
Qed.

Lemma provider_writes_nothing (w : world) (a : args) (texts : list string) :
  write_events (trace (provider_run w a texts)) = [].
Proof.
  apply no_write_events.
  assert (Hkeeps : keeps (fun e => match e with WriteJson _ _ => False | _ => True end)
                     (fun _ => True) (provider_run w a texts)).
  { unfold provider_run, print.
    walk; first [by apply remote_provider_keeps | by apply local_provider_keeps]. }
  apply Hkeeps.
Qed.

(** The pipeline step by step, once the texts are built and the
    provider has returned. *)
Lemma process_provided (w : world) (a : args) (out : string) (df : list row)
  (texts : list string) (events : list event) (embeddings : list vector)
  (name : string) :
  map_result create_food_text df = Ok texts ->
  provider_run w a texts = (events, Done (embeddings, name)) ->
  let path := path_join out "usda_embeddings.json" in
  let dim := match embeddings with [] => O | first :: _ => length first end in
  match map_result (make_item texts embeddings) (enumerate 0 df) with
  | Ok entries =>
      let doc := {| model := name; count := length embeddings;
                    dimension := dim; items := entries |} in
      ending (process w a out df) = Done tt
      /\ write_events (trace (process w a out df)) = [(path, doc)]
  | Raise e =>
      ending (process w a out df) = Uncaught e
      /\ write_events (trace (process w a out df)) = []
  end.
Proof.
  intros Htexts Hprovider path dim.
  pose proof (provider_writes_nothing w a texts) as Hquiet.
  rewrite Hprovider in Hquiet. cbn [trace fst] in Hquiet.
  unfold process, print. rewrite !bind_emit. cbv beta. cbn [trace ending fst snd].
  rewrite Htexts, bind_lift_ok.
  change (if local a then _ else _) with (provider_run w a texts).
  rewrite Hprovider, bind_done. cbn [trace ending fst snd].
  rewrite bind_emit. cbv beta. cbn [trace ending fst snd].
  rewrite dimension_of_ok, bind_lift_ok.
  destruct (map_result (make_item texts embeddings) (enumerate 0 df))
    as [entries|e].
  - rewrite bind_lift_ok, !bind_emit. cbv beta. cbn [trace ending fst snd].
    rewrite bind_lift_ok. split; [reflexivity|].
    unfold write_events in *. simpl. rewrite omap_app, Hquiet. reflexivity.
  - rewrite bind_lift_raise. split; [reflexivity|].
    unfold write_events in *. simpl. rewrite omap_app, Hquiet. reflexivity.
Qed.

Lemma process_writes (w : world) (a : args) (out : string) (df : list row) :
  match ending (process w a out df) with
  | Done _ =>
      exists doc, write_events (trace (process w a out df))
                  = [(path_join out "usda_embeddings.json", doc)]
  | _ => write_events (trace (process w a out df)) = []
  end.
Proof.
  destruct (map_result create_food_text df) as [texts|e] eqn:Htexts.
  - destruct (provider_run w a texts) as [events [[embeddings name]|status|e]]
      eqn:Hprovider.
    + pose proof (process_provided w a out df _ _ _ _ Htexts Hprovider) as H.
      cbv zeta in H.
      destruct (map_result (make_item texts embeddings) (enumerate 0 df));
        destruct H as [-> ->]; eauto.
    + pose proof (provider_writes_nothing w a texts) as Hquiet.
      rewrite Hprovider in Hquiet. cbn [trace fst] in Hquiet.
      unfold process, print. rewrite !bind_emit. cbv beta.
      cbn [trace ending fst snd]. rewrite Htexts, bind_lift_ok.
      change (if local a then _ else _) with (provider_run w a texts).
      rewrite Hprovider. cbn [bind trace ending fst snd].
      unfold write_events in *. simpl. exact Hquiet.
    + pose proof (provider_writes_nothing w a texts) as Hquiet.
      rewrite Hprovider in Hquiet. cbn [trace fst] in Hquiet.
      unfold process, print. rewrite !bind_emit. cbv beta.
      cbn [trace ending fst snd]. rewrite Htexts, bind_lift_ok.
      change (if local a then _ else _) with (provider_run w a texts).
      rewrite Hprovider. cbn [bind trace ending fst snd].
      unfold write_events in *. simpl. exact Hquiet.
  - unfold process, print. rewrite !bind_emit. cbv beta.
    cbn [trace ending fst snd]. by rewrite Htexts, bind_lift_raise.
Qed.

Lemma loading_events_write_nothing (a : args) :
  write_events (loading_events a) = [].
Proof. unfold loading_events. by destruct (truthy_int (limit a)). Qed.

(** X6: no partial output: a run that does not complete writes no file, and
    a run that completes writes exactly one, [usda_embeddings.json] in
    the output directory, which is never the empty path. *)
Theorem file_written_only_on_completion (w : world) (a : args) :
  match ending (script w a) with
  | Done _ =>
      exists doc,
        write_events (trace (script w a))
        = [(path_join (output_dir_of a) "usda_embeddings.json", doc)]
  | _ => write_events (trace (script w a)) = []
  end
  /\ output_dir_of a <> "".
Proof.
  split.
  - unfold script. destruct (pandas_installed w); [|done]. simpl negb. cbv iota.
    destruct (path_exists w (input a)) eqn:Hexists;
      [|by unfold main; rewrite Hexists].
    destruct (read_csv w (input a)) as [df|e] eqn:Hread.
    + rewrite (main_loaded _ _ _ Hexists Hread). cbn [trace ending fst snd].
      pose proof (process_writes w a (output_dir_of a) (limited a df)) as H.
      unfold write_events in *. rewrite omap_app.
      fold (write_events (loading_events a)).
      rewrite loading_events_write_nothing. exact H.
    + by rewrite (main_unreadable _ _ _ Hexists Hread).
  - unfold output_dir_of, truthy_str.
    destruct (output a) as [[|c s]|]; done.
Qed.

(** X3: the row limit of a run that has read its input: the pipeline
    goes on with every row when there is no limit or the limit is 0,
    with the first N rows for a limit N > 0 (all of them when N is not
    below their number), and with all but the last k rows for a limit
    -k; the number of rows it reports as loaded is the number kept. *)
Theorem limit_semantics (w : world) (a : args) (rows : list row) :
  pandas_installed w = true ->
  path_exists w (input a) = true ->
  read_csv w (input a) = Ok rows ->
  script w a
  = (loading_events a ++ trace (process w a (output_dir_of a) (kept_rows a rows)),
     ending (process w a (output_dir_of a) (kept_rows a rows)))
  /\ In (Print ("Loaded " +:+ str_nat (length (kept_rows a rows))
                +:+ " food items")) (trace (script w a))
  /\ (limit a = None \/ limit a = Some 0 -> kept_rows a rows = rows)
  /\ (forall n, limit a = Some n -> 0 < n ->
        kept_rows a rows = firstn (Z.to_nat n) rows)
  /\ (forall n, limit a = Some n -> Z.of_nat (length rows) <= n ->
        kept_rows a rows = rows)
  /\ (forall n, limit a = Some n -> n < 0 ->
        kept_rows a rows = firstn (length rows - Z.to_nat (- n)) rows).
Proof.
  intros Hpandas Hexists Hread.
  destruct (limited_cases a rows) as (Hlimited & Hall & _).
  fold (kept_rows a rows) in Hlimited.
  assert (Hscript : script w a
     = (loading_events a ++ trace (process w a (output_dir_of a) (kept_rows a rows)),
        ending (process w a (output_dir_of a) (kept_rows a rows)))).
  { unfold script. rewrite Hpandas. simpl negb. cbv iota.
    by rewrite (main_loaded _ _ _ Hexists Hread), Hlimited. }
  split; [exact Hscript|]. split.
  { rewrite Hscript. cbn [trace fst]. apply in_or_app. right.
    unfold process, print. rewrite bind_emit. by left. }
  unfold kept_rows, kept_by_head. split; [|split; [|split]].
  - by intros [->| ->].
  - intros n -> Hn. destruct (Z.eqb_spec n 0); [lia|].
    by destruct (Z.leb_spec 0 n); [|lia].
  - intros n -> Hn. destruct (Z.eqb_spec n 0); [done|]. by apply Hall.
  - intros n -> Hn. destruct (Z.eqb_spec n 0); [lia|].
    by destruct (Z.leb_spec 0 n); [lia|].
Qed.

Lemma limit_semantics_witness :
  In (Print "Loaded 2 food items")
    (trace (script (example_world [cheddar; celery; cheddar] with_key)
              (example_args "usda.csv" (Some (-1)) 100)))
  /\ kept_rows (example_args "usda.csv" (Some (-1)) 100)
       [cheddar; celery; cheddar]
     = [cheddar; celery].
Proof.
  destruct (limit_semantics
              (example_world [cheddar; celery; cheddar] with_key)
              (example_args "usda.csv" (Some (-1)) 100)
              [cheddar; celery; cheddar])
    as (_ & Hloaded & _ & _ & _ & Hdrop); [reflexivity..|].
  split; [exact Hloaded|]. by rewrite (Hdrop (-1)).
Defined.

(** *** The output document *)

Lemma make_items_ok (texts : list string) (embeddings : list vector)
  (rows : list row) (start : nat) :
  (start + length rows <= length texts)%nat ->
  (start + length rows <= length embeddings)%nat ->
  exists entries,
    map_result (make_item texts embeddings) (enumerate start rows) = Ok entries.
Proof.
  revert start. induction rows as [|r rows IH]; intros start Ht He.
  - by exists [].
  - cbn [enumerate map_result length] in *. unfold make_item at 1, py_index.
    destruct (nth_error texts start) as [t|] eqn:Hnt;
      [|apply nth_error_None in Hnt; lia].
    destruct (nth_error embeddings start) as [e|] eqn:Hne;
      [|apply nth_error_None in Hne; lia].
    destruct (IH (S start)) as [rest Hrest]; [lia..|].
    rewrite Hrest. cbn [rbind]. eauto.
Qed.

Lemma make_items_short (texts : list string) (embeddings : list vector)
  (rows : list row) (start : nat) :
  (start <= length embeddings)%nat ->
  (length embeddings < start + length rows)%nat ->
  map_result (make_item texts embeddings) (enumerate start rows)
  = Raise IndexError.
Proof.
  revert start. induction rows as [|r rows IH]; intros start Hle Hlt.
  - simpl in Hlt. lia.
  - cbn [enumerate map_result length] in *. unfold make_item at 1, py_index.
    destruct (nth_error texts start) as [t|]; [|done].
    destruct (nth_error embeddings start) as [e|] eqn:Hne; [|done].
    assert (start < length embeddings)%nat
      by (apply nth_error_Some; congruence).
    cbn [rbind]. by rewrite IH by lia.
Qed.

Lemma make_items_rows (texts : list string) (embeddings : list vector)
  (rows : list row) (start : nat) (entries : list item) :
  map_result (make_item texts embeddings) (enumerate start rows) = Ok entries ->
  forall i it, nth_error entries i = Some it ->
    exists r, nth_error rows i = Some r
              /\ fdc_id it = match r !! "fdc_id" with
                             | Some v => py_str v
                             | None => str_nat (start + i)
                             end.
Proof.
  revert start entries. induction rows as [|r rows IH]; intros start entries.
  - simpl. intros [= <-]. by intros [|i] it.
  - cbn [enumerate map_result]. unfold make_item at 1, py_index.
    destruct (nth_error texts start) as [t|]; [|done].
    destruct (nth_error embeddings start) as [e|]; [|done].
    cbn [rbind].
    destruct (map_result _ (enumerate (S start) rows)) as [rest|] eqn:Hrest;
      [|done].
    cbn [rbind]. intros [= <-]. intros [|i] it; simpl.
    + intros [= <-]. exists r. by rewrite Nat.add_0_r.
    + intros Hit. rewrite Nat.add_succ_r. by apply (IH _ _ Hrest).
Qed.

Lemma map_result_nth {A B} (f : A -> result B) (xs : list A) (ys : list B) :
  map_result f xs = Ok ys ->
  forall i x, nth_error xs i = Some x ->
    exists y, nth_error ys i = Some y /\ f x = Ok y.
Proof.
  revert ys. induction xs as [|x0 xs IH]; intros ys; simpl.
  - intros _ [|i] x; done.
  - destruct (f x0) as [y0|] eqn:Hy0; simpl; [|done].
    destruct (map_result f xs) as [ys'|]; simpl; [|done].
    intros [= <-]. intros [|i] x; simpl.
    + intros [= <-]. eauto.
    + by apply IH.
Qed.

Lemma Forall2_nth_error {A B} (R : A -> B -> Prop) (l : list A) (k : list B) :
  Forall2 R l k ->
  forall i x y, nth_error l i = Some x -> nth_error k i = Some y -> R x y.
Proof.
  induction 1 as [|x0 y0 l k Hhead _ IH]; intros [|i] x y; simpl; try done.
  - by intros [= <-] [= <-].
  - apply IH.
Qed.

(** The remote provider with a batch size above zero and a service that
    answers every batch. *)
Lemma remote_provider_vectors (w : world) (texts : list string) (b : Z)
  (R : string -> vector -> Prop) :
  openai_installed w = true ->
  truthy_str (environ w !! "OPENAI_API_KEY") = true ->
  0 < b ->
  (forall batch, exists vs,
      embeddings_create w batch = Ok vs /\ Forall2 R batch vs) ->
  exists vectors,
    ending (generate_openai_embeddings w texts b) = Done vectors
    /\ Forall2 R texts vectors.
Proof.
  intros Hinst Hkey Hb Hsvc.
  destruct (range_starts (length texts) b Hb) as (m & Hrange & _ & Hup & Hlow).
  set (starts := map (fun k => 0 + Z.of_nat k * b) (seq 0 m)) in *.
  assert (Hanswers : forall batch, exists vs, embeddings_create w batch = Ok vs).
  { intros batch. destruct (Hsvc batch) as (vs & Hvs & _). eauto. }
  destruct (batch_loop w texts b starts Hanswers []) as (replies & Hall & Hend & _).
  exists (concat replies). split.
  - unfold generate_openai_embeddings, print. rewrite Hinst, Hkey.
    simpl negb. cbv iota. rewrite bind_emit. cbv beta.
    by rewrite Hrange, bind_lift_ok.
  - assert (Hcut : concat (map (fun i => py_slice texts i (i + b)) starts) = texts).
    { unfold starts. rewrite map_map.
      rewrite (map_ext_in _ (fun k => firstn (Z.to_nat b)
                                        (skipn (k * Z.to_nat b) texts))).
      - apply chunks_concat; lia.
      - intros k Hk. apply in_seq in Hk. specialize (Hlow k ltac:(lia)).
        rewrite slice_chunk by nia. do 2 f_equal. nia. }
    rewrite <- Hcut at 1. apply Forall2_concat_replies.
    apply Forall2_fmap_l. eapply Forall2_impl; [exact Hall|].
    intros i reply Hreply. simpl.
    destruct (Hsvc (py_slice texts i (i + b))) as (vs & Hvs & HR). congruence.
Qed.

(** X7: end to end on the remote path: with a batch size above zero, a
    service that answers every batch with one vector per text, and rows
    the builder accepts, the run completes and writes one document whose
    count and number of items are the number of rows kept by the limit;
    item i holds the identifier and the text of row i and a vector the
    service gave for that text; the dimension is the length of the
    first vector. *)
Theorem remote_run_end_to_end (w : world) (a : args) (rows : list row)
  (texts : list string) (R : string -> vector -> Prop) :
  pandas_installed w = true ->
  path_exists w (input a) = true ->
  read_csv w (input a) = Ok rows ->
  local a = false ->
  openai_installed w = true ->
  truthy_str (environ w !! "OPENAI_API_KEY") = true ->
  0 < batch_size a ->
  (forall batch, exists vs,
      embeddings_create w batch = Ok vs /\ Forall2 R batch vs) ->
  map_result create_food_text (limited a rows) = Ok texts ->
  ending (script w a) = Done tt
  /\ exists doc,
       write_events (trace (script w a))
       = [(path_join (output_dir_of a) "usda_embeddings.json", doc)]
       /\ model doc = "text-embedding-3-small"
       /\ count doc = length (limited a rows)
       /\ length (items doc) = length (limited a rows)
       /\ dimension doc = match items doc with
                          | [] => O
                          | first :: _ => length (embedding first)
                          end
       /\ forall i it, nth_error (items doc) i = Some it ->
            exists r, nth_error (limited a rows) i = Some r
                      /\ create_food_text r = Ok (text it)
                      /\ R (text it) (embedding it)
                      /\ fdc_id it = match r !! "fdc_id" with
                                     | Some v => py_str v
                                     | None => str_nat i
                                     end.
Proof.
  intros Hpandas Hexists Hread Hlocal Hinst Hkey Hb Hsvc Htexts.
  set (df := limited a rows) in *.
  destruct (remote_provider_vectors w texts (batch_size a) R Hinst Hkey Hb Hsvc)
    as (vectors & Hend & Hrel).
  pose proof (map_result_length _ _ _ Htexts) as Hlen.
  pose proof (Forall2_length _ _ _ Hrel) as Hlen'.
  assert (Hprovider : exists events,
             provider_run w a texts
             = (events, Done (vectors, "text-embedding-3-small"))).
  { unfold provider_run, print. rewrite Hlocal, bind_emit. cbv beta.
    rewrite (run_eta (generate_openai_embeddings _ _ _)), Hend, bind_done.
    cbn [pure trace ending fst snd]. eauto. }
  destruct Hprovider as [events Hprovider].
  pose proof (process_provided w a (output_dir_of a) df _ _ _ _ Htexts Hprovider)
    as Hprocess. cbv zeta in Hprocess.
  destruct (make_items_ok texts vectors df 0) as [entries Hentries]; [lia..|].
  rewrite Hentries in Hprocess. destruct Hprocess as [Hdone Hwrite].
  destruct (make_items_spec _ _ _ _ _ Hentries) as [Hcount Hnth].
  unfold script. rewrite Hpandas. simpl negb. cbv iota.
  rewrite (main_loaded _ _ _ Hexists Hread). fold df. cbn [trace ending fst snd].
  split; [exact Hdone|]. eexists. split.
  { unfold write_events in *. rewrite omap_app.
    fold (write_events (loading_events a)).
    rewrite loading_events_write_nothing. exact Hwrite. }
  cbn [model count dimension items].
  split; [reflexivity|]. split; [lia|]. split; [exact Hcount|]. split.
  - destruct entries as [|first entries']; destruct vectors as [|v vectors'];
      try reflexivity.
    + simpl in *. lia.
    + destruct (Hnth 0%nat first eq_refl) as [_ Hv]. discriminate.
    + destruct (Hnth 0%nat first eq_refl) as [_ Hv]. simpl in Hv.
      by injection Hv as ->.
  - intros i it Hit.
    destruct (make_items_rows _ _ _ _ _ Hentries i it Hit) as (r & Hr & Hid).
    destruct (Hnth i it Hit) as [Ht Hv]. simpl in Ht, Hv.
    exists r. split; [exact Hr|].
    destruct (map_result_nth _ _ _ Htexts i r Hr) as (t & Ht' & Hbuilt).
    split; [congruence|]. split; [|exact Hid].
    eapply Forall2_nth_error; eauto.
Qed.

Lemma remote_run_end_to_end_witness :
  ending (script (example_world [cheddar; celery; cheddar] with_key)
            (example_args "usda.csv" (Some 2) 1)) = Done tt.
Proof.
  destruct (remote_run_end_to_end
              (example_world [cheddar; celery; cheddar] with_key)
              (example_args "usda.csv" (Some 2) 1)
              [cheddar; celery; cheddar]
              ["Cheese, cheddar | Category: Dairy | Nutrients per 100g: protein: 22.87g/100g, fat: 33.30g/100g, carbs: 3.37g/100g, calcium: 710.00g/100g, iron: 0.12g/100g";
               "Celery, raw | Category: Vegetables | Nutrients per 100g: protein: 0.69g/100g, fat: 0.17g/100g, carbs: 2.97g/100g, calcium: 40.00g/100g, iron: 0.20g/100g"]
              (fun t v => v = length_vector t))
    as [Hdone _];
    first [ exact Hdone | reflexivity | apply example_service_answers
          | vm_compute; reflexivity ].
Defined.

(** X8: the local path trusts the number of vectors the model returns:
    with at least one vector per row the run completes and the count
    field is the number of vectors, even when it exceeds the number of
    items; with fewer vectors than rows the assembly of the items
    raises [IndexError] and nothing is written. *)
Theorem local_reply_length (w : world) (a : args) (rows : list row)
  (texts : list string) (vectors : list vector) :
  pandas_installed w = true ->
  path_exists w (input a) = true ->
  read_csv w (input a) = Ok rows ->
  local a = true ->
  sentence_transformers_installed w = true ->
  map_result create_food_text (limited a rows) = Ok texts ->
  encode w texts (batch_size a) = Ok vectors ->
  ((length (limited a rows) <= length vectors)%nat ->
   ending (script w a) = Done tt
   /\ exists doc,
        write_events (trace (script w a))
        = [(path_join (output_dir_of a) "usda_embeddings.json", doc)]
        /\ model doc = "all-MiniLM-L6-v2"
        /\ count doc = length vectors
        /\ length (items doc) = length (limited a rows))
  /\ ((length vectors < length (limited a rows))%nat ->
      ending (script w a) = Uncaught IndexError
      /\ write_events (trace (script w a)) = []).
Proof.
  intros Hpandas Hexists Hread Hlocal Hinst Htexts Hencode.
  set (df := limited a rows) in *.
  pose proof (map_result_length _ _ _ Htexts) as Hlen.
  assert (Hprovider : exists events,
             provider_run w a texts = (events, Done (vectors, "all-MiniLM-L6-v2"))).
  { unfold provider_run, generate_local_embeddings, print.
    rewrite Hlocal, Hinst, Hencode. eexists. reflexivity. }
  destruct Hprovider as [events Hprovider].
  pose proof (process_provided w a (output_dir_of a) df _ _ _ _ Htexts Hprovider)
    as Hprocess. cbv zeta in Hprocess.
  assert (Hscript : script w a
     = (loading_events a ++ trace (process w a (output_dir_of a) df),
        ending (process w a (output_dir_of a) df))).
  { unfold script. rewrite Hpandas. simpl negb. cbv iota.
    by rewrite (main_loaded _ _ _ Hexists Hread). }
  assert (Hwrites : write_events (trace (script w a))
                    = write_events (trace (process w a (output_dir_of a) df))).
  { rewrite Hscript. cbn [trace fst]. unfold write_events. rewrite omap_app.
    fold (write_events (loading_events a)).
    by rewrite loading_events_write_nothing. }
  rewrite Hwrites, Hscript. cbn [ending snd]. split.
  - intros Henough.
    destruct (make_items_ok texts vectors df 0) as [entries Hentries]; [lia..|].
    rewrite Hentries in Hprocess. destruct Hprocess as [Hdone Hwrite].
    destruct (make_items_spec _ _ _ _ _ Hentries) as [Hcount _].
    split; [exact Hdone|]. eexists. split; [exact Hwrite|]. by cbn.
  - intros Hshort.
    rewrite (make_items_short texts vectors df 0) in Hprocess by lia.
    exact Hprocess.
Qed.

Lemma local_reply_length_witness :
  (ending (script (fixed_reply_world [cheddar; celery] 3)
             (local_args "usda.csv" None)) = Done tt
   /\ map count (written (trace (script (fixed_reply_world [cheddar; celery] 3)
                                   (local_args "usda.csv" None)))) = [3%nat])
  /\ ending (script (fixed_reply_world [cheddar; celery] 1)
               (local_args "usda.csv" None)) = Uncaught IndexError.
Proof.
  split.
  - destruct (local_reply_length (fixed_reply_world [cheddar; celery] 3)
                (local_args "usda.csv" None) [cheddar; celery]
                ["Cheese, cheddar | Category: Dairy | Nutrients per 100g: protein: 22.87g/100g, fat: 33.30g/100g, carbs: 3.37g/100g, calcium: 710.00g/100g, iron: 0.12g/100g";
                 "Celery, raw | Category: Vegetables | Nutrients per 100g: protein: 0.69g/100g, fat: 0.17g/100g, carbs: 2.97g/100g, calcium: 40.00g/100g, iron: 0.20g/100g"]
                (repeat [1%Q; 0%Q] 3)) as [Hsurplus _];
      [vm_compute; reflexivity ..|].
    destruct Hsurplus as [Hdone _]; [vm_compute; lia|].
    split; [exact Hdone | vm_compute; reflexivity].
  - destruct (local_reply_length (fixed_reply_world [cheddar; celery] 1)
                (local_args "usda.csv" None) [cheddar; celery]
                ["Cheese, cheddar | Category: Dairy | Nutrients per 100g: protein: 22.87g/100g, fat: 33.30g/100g, carbs: 3.37g/100g, calcium: 710.00g/100g, iron: 0.12g/100g";
                 "Celery, raw | Category: Vegetables | Nutrients per 100g: protein: 0.69g/100g, fat: 0.17g/100g, carbs: 2.97g/100g, calcium: 40.00g/100g, iron: 0.20g/100g"]
                (repeat [1%Q; 0%Q] 1)) as [_ Hshort];
      [vm_compute; reflexivity ..|].
    destruct Hshort as [Hraise _]; [vm_compute; lia|]. exact Hraise.
Defined.

(** *** The batch loop and its failures *)

Lemma batch_step_raise (w : world) (texts : list string) (b : Z)
  (acc : list vector) (i : Z) (e : exn) :
  embeddings_create w (py_slice texts i (i + b)) = Raise e ->
  batch_step w texts b acc i
  = ([EmbeddingsCreate "text-embedding-3-small" (py_slice texts i (i + b))],
     Uncaught e).
Proof.
  intros Hreply. unfold batch_step, print. cbv zeta.
  rewrite bind_emit. cbv beta. by rewrite Hreply, bind_lift_raise.
Qed.

(** The loop sends the batches in order, each at most once, and stops
    at the first one the service refuses. *)
Lemma batch_loop_prefix (w : world) (texts : list string) (b : Z)
  (starts : list Z) (acc : list vector) :
  let run := for_run (batch_step w texts b) starts acc in
  let batches := map (fun i => py_slice texts i (i + b)) starts in
  exists sent : nat,
    network_inputs (trace run) = firstn sent batches
    /\ match ending run with
       | Done _ => sent = length batches
       | Uncaught e =>
           exists last, nth_error batches (pred sent) = Some last
                        /\ (0 < sent)%nat
                        /\ embeddings_create w last = Raise e
       | Exit _ => False
       end.
Proof.
  cbv zeta. revert acc. induction starts as [|i starts IH]; intros acc.
  - exists O. by split.
  - cbn [for_run map].
    destruct (embeddings_create w (py_slice texts i (i + b))) as [reply|e]
      eqn:Hreply.
    + rewrite (batch_step_ok _ _ _ _ _ _ Hreply), bind_done.
      cbn [trace ending fst snd].
      destruct (IH (acc ++ reply)) as (sent & Hsent & Hend).
      exists (S sent). split.
      * unfold network_inputs in *. simpl. f_equal. exact Hsent.
      * destruct (ending (for_run _ starts (acc ++ reply))); [|done|].
        -- simpl. by f_equal.
        -- destruct Hend as (last & Hlast & Hpos & Hraise).
           exists last. split; [|split; [lia | exact Hraise]].
           destruct sent; [lia|]. exact Hlast.
    + rewrite (batch_step_raise _ _ _ _ _ _ Hreply).
      exists 1%nat. split; [reflexivity|].
      cbn [bind ending snd]. exists (py_slice texts i (i + b)).
      split; [reflexivity | split; [lia | exact Hreply]].
Qed.

(** X9: no retry: the remote provider sends a prefix of the planned
    batches, in order and each once; it returns only after all of them,
    and when the service refuses a batch that batch is the last one sent
    and its exception ends the provider. *)
Theorem remote_provider_stops_at_first_failure (w : world)
  (texts : list string) (b : Z) :
  openai_installed w = true ->
  truthy_str (environ w !! "OPENAI_API_KEY") = true ->
  b <> 0 ->
  exists sent : nat,
    network_inputs (trace (generate_openai_embeddings w texts b))
    = firstn sent (planned_batches texts b)
    /\ match ending (generate_openai_embeddings w texts b) with
       | Done _ => sent = length (planned_batches texts b)
       | Uncaught e =>
           exists last,
             nth_error (planned_batches texts b) (pred sent) = Some last
             /\ (0 < sent)%nat
             /\ embeddings_create w last = Raise e
       | Exit _ => False
       end.
Proof.
  intros Hinst Hkey Hb. unfold planned_batches.
  unfold generate_openai_embeddings, print. rewrite Hinst, Hkey.
  simpl negb. cbv iota. rewrite bind_emit. cbv beta. cbn [trace ending fst snd].
  destruct (py_range 0 (Z.of_nat (length texts)) b) as [starts|e] eqn:Hrange.
  - rewrite bind_lift_ok.
    destruct (batch_loop_prefix w texts b starts []) as (sent & Hsent & Hend).
    exists sent. split; [|exact Hend].
    unfold network_inputs in *. simpl. exact Hsent.
  - unfold py_range in Hrange. destruct (Z.eqb_spec b 0); [done|discriminate].
Qed.

Lemma remote_provider_stops_at_first_failure_witness :
  network_inputs
    (trace (generate_openai_embeddings refusing_world
              ["apple"; "kiwi"; "fig"; "banana"; "plum"] 2))
  = [["apple"; "kiwi"]; ["fig"; "banana"]]
  /\ planned_batches ["apple"; "kiwi"; "fig"; "banana"; "plum"] 2
     = [["apple"; "kiwi"]; ["fig"; "banana"]; ["plum"]].
Proof.
  destruct (remote_provider_stops_at_first_failure refusing_world
              ["apple"; "kiwi"; "fig"; "banana"; "plum"] 2)
    as (sent & Hsent & _); [reflexivity | vm_compute; reflexivity | lia |].
  split; vm_compute; reflexivity.
Defined.

(** X10: a batch size that is not positive: zero makes [range] raise
    [ValueError], a negative one makes the loop empty, so that the
    provider returns no vector at all; in both cases the service is
    never called. *)
Theorem nonpositive_batch_size (w : world) (texts : list string) (b : Z) :
  openai_installed w = true ->
  truthy_str (environ w !! "OPENAI_API_KEY") = true ->
  b <= 0 ->
  network_inputs (trace (generate_openai_embeddings w texts b)) = []
  /\ ending (generate_openai_embeddings w texts b)
     = (if b =? 0 then Uncaught ValueError else Done []).
Proof.
  intros Hinst Hkey Hb.
  unfold generate_openai_embeddings, print. rewrite Hinst, Hkey.
  simpl negb. cbv iota. rewrite bind_emit. cbv beta. cbn [trace ending fst snd].
  unfold py_range. destruct (Z.eqb_spec b 0) as [->|Hne].
  - by rewrite bind_lift_raise.
  - destruct (Z.ltb_spec 0 b); [lia|].
    destruct (Z.ltb_spec (Z.of_nat (length texts)) 0); [lia|].
    by rewrite bind_lift_ok.
Qed.

Lemma nonpositive_batch_size_witness :
  ending (generate_openai_embeddings (example_world [] with_key)
            ["apple"; "kiwi"] (-5)) = Done []
  /\ ending (script (example_world [cheddar] with_key)
               (example_args "usda.csv" None (-5))) = Uncaught IndexError.
Proof.
  split; [|vm_compute; reflexivity].
  destruct (nonpositive_batch_size (example_world [] with_key)
              ["apple"; "kiwi"] (-5)) as [_ Hend];
    [reflexivity | vm_compute; reflexivity | lia | exact Hend].
Defined.

End PipelineExtras.

(** * More facts about the supplement query tool *)

Module QueryExtras.
Import Query RunFacts RunExtras QueryFacts.

Local Open Scope run_scope.

(** [main] once a flag has a value: the banner, the request of the
    selected operation, then the presentation of what came back. *)
Lemma main_selected (w : world) (a : args) (req : request) :
  selected a = Some req ->
  main w a
  = handle (print (banner a);; result <- fetch w req;; after_fetch w a result).
Proof.
  unfold selected, main, dispatch, banner, after_fetch, show_label,
    search_products, search_by_ingredient, search_by_brand, get_product_label,
    browse, label_request.
  destruct (label a) as [[|c1 s1]|]; destruct (ingredient a) as [[|c2 s2]|];
    destruct (brand a) as [[|c3 s3]|]; destruct (product a) as [[|c4 s4]|];
    cbn [truthy orb negb default]; intros [= <-]; reflexivity.
Qed.

Lemma main_help (w : world) (a : args) :
  selected a = None ->
  flags_given a = O
  /\ ending (main w a) = Exit 0
  /\ hd_error (trace (main w a)) = Some PrintHelp
  /\ http_requests (trace (main w a)) = [].
Proof.
  unfold selected, main, flags_given.
  destruct (label a) as [[|c1 s1]|]; destruct (ingredient a) as [[|c2 s2]|];
    destruct (brand a) as [[|c3 s3]|]; destruct (product a) as [[|c4 s4]|];
    cbn [truthy orb negb]; intros [=]; by vm_compute.
Qed.

Lemma fetched_ok (w : world) (line : string) (req : request) (result : json)
  (k : json -> prog unit) :
  http_get w req = Ok result ->
  (print line;; result <- fetch w req;; k result)
  = (Print line :: HttpGet req :: trace (k result), ending (k result)).
Proof.
  intros Hget. unfold print, fetch. rewrite bind_emit. cbv beta.
  cbn [trace ending fst snd].
  assert (Hfetch : (emit (HttpGet req);; lift (http_get w req))
                   = ([HttpGet req], Done result)) by (by rewrite Hget).
  by rewrite Hfetch, bind_done.
Qed.

Lemma fetched_raise (w : world) (line : string) (req : request) (e : exn)
  (k : json -> prog unit) :
  http_get w req = Raise e ->
  (print line;; result <- fetch w req;; k result)
  = ([Print line; HttpGet req], Uncaught e).
Proof.
  intros Hget. unfold print, fetch. rewrite bind_emit. cbv beta.
  cbn [trace ending fst snd].
  assert (Hfetch : (emit (HttpGet req);; lift (http_get w req))
                   = ([HttpGet req], Uncaught e : outcome json))
    by (by rewrite Hget).
  by rewrite Hfetch.
Qed.

Lemma after_fetch_quiet (w : world) (a : args) (result : json) :
  quiet (after_fetch w a result).
Proof.
  unfold after_fetch. destruct (truthy (label a)).
  - apply quiet_label_detail.
  - apply quiet_present.
Qed.

(** X11: on every command line the tool sends at most one HTTP request: none
    when no flag has a value (it then prints the help and exits with
    status 0), and otherwise the request of the one operation selected
    by precedence, whatever the service answers. *)
Theorem at_most_one_request (w : world) (a : args) :
  http_requests (trace (main w a))
  = match selected a with
    | Some req => [req]
    | None => []
    end
  /\ (selected a = None <-> flags_given a = O)
  /\ (selected a = None ->
      ending (main w a) = Exit 0
      /\ hd_error (trace (main w a)) = Some PrintHelp).
Proof.
  split; [|split].
  - destruct (selected a) as [req|] eqn:Hsel.
    + rewrite (main_selected _ _ _ Hsel). apply fetch_then_quiet.
      intros result. apply after_fetch_quiet.
    + by apply main_help.
  - split; [intros H; apply (main_help w a H)|].
    unfold selected, flags_given.
    destruct (label a) as [[|c1 s1]|]; destruct (ingredient a) as [[|c2 s2]|];
      destruct (brand a) as [[|c3 s3]|]; destruct (product a) as [[|c4 s4]|];
      cbn; congruence.
  - intros Hsel. destruct (main_help w a Hsel) as (_ & Hend & Hhead & _). done.
Qed.



(** X13: with [--json] a document of any shape is printed as it came, in one
    piece, and the run completes; the label branch prints the same
    rendering without [--json] too, after a header of three lines. *)
Theorem raw_document_is_printed (w : world) (a : args) (req : request)
  (result : json) :
  selected a = Some req ->
  http_get w req = Ok result ->
  (json_flag a = true ->
   main w a = ([Print (banner a); HttpGet req; Print (json_dumps w result)],
               Done tt))
  /\ (json_flag a = false -> truthy (label a) = true ->
      main w a = ([Print (banner a); HttpGet req; Print (nl +:+ rule);
                   Print "Product Label Details"; Print rule;
                   Print (json_dumps w result)], Done tt)).
Proof.
  intros Hsel Hget. rewrite (main_selected _ _ _ Hsel).
  rewrite (fetched_ok _ _ _ _ _ Hget).
  unfold after_fetch, show_label, present. split.
  - intros ->. by destruct (truthy (label a)).
  - by intros -> ->.
Qed.

Lemma raw_document_is_printed_witness :
  main list_world (brand_search true)
  = ([Print "Searching for brand: nature made";
      HttpGet (browse "brandname" "nature made" 5);
      Print "<json>"], Done tt).
Proof.
  apply (raw_document_is_printed list_world (brand_search true)
           (browse "brandname" "nature made" 5) (JArr [JStr "unexpected"]));
    reflexivity.
Defined.

Lemma format_product_text (w : world) (product : dict) :
  format_product w product = Ok (product_text w product).
Proof.
  unfold format_product, product_lines, product_text, dict_contains,
    dict_getitem, serving_line, shown_field.
  destruct (dict_get product "serving_size");
    destruct (dict_get product "dsld_id");
    destruct (dict_get product "product_name");
    destruct (dict_get product "brand_name");
    destruct (dict_get product "product_type"); reflexivity.
Qed.

Lemma show_product_dict (w : world) (i : nat) (product : dict) :
  show_product w tt (i, JObj product)
  = (product_events w (i, product), Done tt).
Proof.
  unfold show_product, attr_get, product_events, print.
  rewrite format_product_text. reflexivity.
Qed.

Lemma show_products_dicts (w : world) (products : list dict) (start : nat) :
  for_run (show_product w) (enumerate start (map JObj products)) tt
  = (flat_map (product_events w) (enumerate start products), Done tt).
Proof.
  revert start. induction products as [|d products IH]; intros start.
  - reflexivity.
  - cbn [map enumerate for_run flat_map].
    by rewrite show_product_dict, bind_done, IH.
Qed.

(** X14: the formatted list: for a search without [--json] whose answer is
    an object holding a list of product objects (under "products", else
    under "data"; an object with neither counts as an empty list), the
    run completes after printing the number of products and, for each
    product in order, its number from 1, its name, its lines and an
    empty line. *)
Theorem formatted_list_is_numbered (w : world) (a : args) (req : request)
  (d : dict) (products : list dict) :
  selected a = Some req ->
  truthy (label a) = false ->
  json_flag a = false ->
  http_get w req = Ok (JObj d) ->
  listing d = JArr (map JObj products) ->
  main w a
  = ([ Print (banner a); HttpGet req;
       Print (nl +:+ "Found " +:+ str_int (Z.of_nat (length products))
              +:+ " products:" +:+ nl) ]
     ++ flat_map (product_events w) (enumerate 1 products),
     Done tt).
Proof.
  intros Hsel Hlabel Hraw Hget Hlist.
  rewrite (main_selected _ _ _ Hsel), (fetched_ok _ _ _ _ _ Hget).
  unfold after_fetch, present. rewrite Hlabel, Hraw.
  cbn [attr_get]. rewrite !bind_lift_ok. fold (listing d). rewrite Hlist.
  cbn [py_len py_iter]. rewrite bind_lift_ok. unfold print.
  rewrite bind_emit, bind_lift_ok, show_products_dicts, length_map.
  reflexivity.
Qed.

Lemma formatted_list_is_numbered_witness :
  main example_world (brand_search false)
  = ([ Print "Searching for brand: nature made";
       HttpGet (browse "brandname" "nature made" 5);
       Print (nl +:+ "Found 1 products:" +:+ nl);
       Print "1. Fish Oil";
       Print ("  ID: 12345" +:+ nl +:+ "  Name: Fish Oil" +:+ nl
              +:+ "  Brand: Nature Made" +:+ nl +:+ "  Type: N/A");
       Print "" ], Done tt).
Proof.
  apply (formatted_list_is_numbered example_world (brand_search false)
           (browse "brandname" "nature made" 5)
           [("products", JArr [JObj fish_oil])] [fish_oil]);
    reflexivity.
Defined.

(** X15: a search without [--json] whose answer is not an object fails with
    [AttributeError], which neither [except] clause catches: no
    diagnostic line is printed and the exception leaves [main]. *)
Theorem answer_that_is_no_object_raises (w : world) (a : args) (req : request)
  (result : json) :
  selected a = Some req ->
  truthy (label a) = false ->
  json_flag a = false ->
  http_get w req = Ok result ->
  is_dict result = false ->
  main w a = ([Print (banner a); HttpGet req], Uncaught AttributeError).
Proof.
  intros Hsel Hlabel Hraw Hget Hshape.
  rewrite (main_selected _ _ _ Hsel), (fetched_ok _ _ _ _ _ Hget).
  unfold after_fetch, present. rewrite Hlabel, Hraw.
  destruct result; try discriminate; reflexivity.
Qed.

Lemma answer_that_is_no_object_raises_witness :
  main list_world (brand_search false)
  = ([Print "Searching for brand: nature made";
      HttpGet (browse "brandname" "nature made" 5)],
     Uncaught AttributeError).
Proof.
  apply (answer_that_is_no_object_raises list_world (brand_search false)
           (browse "brandname" "nature made" 5) (JArr [JStr "unexpected"]));
    reflexivity.
Defined.

(** X16: the presenter of a product reads five keys and nothing else:
    products that agree on them are shown alike. *)
Theorem format_product_reads_five_keys (w : world) (d1 d2 : dict) :
  (forall key, In key product_keys -> dict_get d1 key = dict_get d2 key) ->
  format_product w d1 = format_product w d2.
Proof.
  intros Hagree. rewrite !format_product_text. f_equal.
  unfold product_text, shown_field, serving_line.
  by rewrite !Hagree by (simpl; tauto).
Qed.

Lemma format_product_reads_five_keys_witness :
  dict_get fish_oil_on_sale "on_sale" <> dict_get fish_oil "on_sale"
  /\ format_product example_world fish_oil_on_sale
     = format_product example_world fish_oil.
Proof.
  split; [vm_compute; congruence|].
  apply format_product_reads_five_keys.
  intros key Hkey. simpl in Hkey.
  repeat (destruct Hkey as [<-|Hkey]; [reflexivity|]). destruct Hkey.
Defined.

Lemma after_fetch_never_exits (w : world) (a : args) (result : json) :
  keeps (fun _ => True) (fun _ => False) (after_fetch w a result).
Proof.
  unfold after_fetch, show_label, present, show_product, print. walk.
Qed.

(** X17: once the command line is parsed, the exit status of the query
    tool is 0 or 1 whatever the service answers, and the tool calls
    [sys.exit(0)] exactly when no flag has a value. *)
Theorem query_exit_status (w : world) (a : args) :
  (exit_status (main w a) = 0 \/ exit_status (main w a) = 1)
  /\ (ending (main w a) = Exit 0 <-> selected a = None).
Proof.
  destruct (selected a) as [req|] eqn:Hsel.
  - rewrite (main_selected _ _ _ Hsel). unfold exit_status.
    destruct (http_get w req) as [result|e] eqn:Hget.
    + rewrite (fetched_ok _ _ _ _ _ Hget).
      destruct (after_fetch_never_exits w a result) as [_ Hexit].
      destruct (ending (after_fetch w a result)) as [[]|status|[]] eqn:Hend;
        try done; cbn [handle ending snd];
        (split; [auto | split; discriminate]).
    + rewrite (fetched_raise _ _ _ _ _ Hget).
      destruct e; cbn [handle ending snd];
        (split; [auto | split; discriminate]).
  - destruct (main_help w a Hsel) as (_ & Hend & _).
    unfold exit_status. rewrite Hend. by repeat split; auto.
Qed.

End QueryExtras.
